(** * Shallow embedding of the dizparos dialer backend (src/app.py)

    The Supabase store is modelled as a record of tables; every Supabase
    call of the source becomes a primitive of a small state monad that
    also appends to an operation log, so the order of writes and of the
    gateway request can be stated.  The voice gateway (an HTTP POST) and
    the wall clock are the environment: the gateway is an oracle argument,
    [now_utc_iso] reads and advances a logical clock kept in the store. *)

From Stdlib Require Import ZArith List String Ascii Bool Lia.
Import ListNotations.
Open Scope Z_scope.
Open Scope string_scope.

(* ------------------------------------------------------------------ *)
(** ** JSON values and the Python helpers the code relies on *)

(** JSON scalars as the code handles them (floats and nested documents
    are not modelled; they only flow through as opaque stored values). *)
Inductive jval :=
| JNone
| JBool (b : bool)
| JInt (z : Z)
| JStr (s : string).

(** Python truthiness. *)
Definition truthy (v : jval) : bool :=
  match v with
  | JNone => false
  | JBool b => b
  | JInt z => negb (Z.eqb z 0)
  | JStr s => negb (String.eqb s "")
  end.

(** [a or b] *)
Definition py_or (a b : jval) : jval := if truthy a then a else b.

Fixpoint digits_aux (fuel : nat) (n : N) (acc : string) : string :=
  match fuel with
  | O => acc
  | S f =>
      let acc' := String (ascii_of_N (48 + N.modulo n 10)) acc in
      if N.ltb n 10 then acc' else digits_aux f (N.div n 10) acc'
  end.

Definition show_N (n : N) : string :=
  digits_aux (S (N.to_nat (N.log2 n))) n "".

(** [str(v)] *)
Definition py_str (v : jval) : string :=
  match v with
  | JNone => "None"
  | JBool true => "True"
  | JBool false => "False"
  | JInt z => if Z.ltb z 0 then "-" ++ show_N (Z.abs_N z) else show_N (Z.to_N z)
  | JStr s => s
  end.

(** [str.lower] on the 8-bit characters of a Rocq string (A-Z only). *)
Definition lower_ascii (c : ascii) : ascii :=
  let n := nat_of_ascii c in
  if (Nat.leb 65 n && Nat.leb n 90)%bool then ascii_of_nat (n + 32) else c.

Fixpoint lower (s : string) : string :=
  match s with
  | EmptyString => EmptyString
  | String c r => String (lower_ascii c) (lower r)
  end.

(** [needle in hay] for strings (substring test). *)
Fixpoint py_in (needle hay : string) : bool :=
  if String.prefix needle hay then true
  else match hay with
       | EmptyString => false
       | String _ r => py_in needle r
       end.

(** [str.isspace] on one character read as Latin-1. *)
Definition is_space (c : ascii) : bool :=
  let n := nat_of_ascii c in
  ((Nat.leb 9 n && Nat.leb n 13) || (Nat.leb 28 n && Nat.leb n 32)
   || Nat.eqb n 133 || Nat.eqb n 160)%bool.

Fixpoint lstrip (s : string) : string :=
  match s with
  | EmptyString => EmptyString
  | String c r => if is_space c then lstrip r else s
  end.

Fixpoint rev_str (s : string) (acc : string) : string :=
  match s with
  | EmptyString => acc
  | String c r => rev_str r (String c acc)
  end.

(** [str.strip()] *)
Definition strip (s : string) : string :=
  rev_str (lstrip (rev_str (lstrip s) "")) "".

(* ------------------------------------------------------------------ *)
(** ** Tables *)

(** Timestamps written by [now_utc_iso] are values of a logical clock. *)
Definition timestamp := nat.

(** A row of [calls]; row ids are generated by the store. *)
Record call := mkCall {
  c_id : nat;
  c_campaign_id : option string;
  c_contact_id : option string;
  c_status : string;
  c_dizparos_call_id : option string;
  c_created_at : option timestamp;
  c_finished_at : option timestamp;
  c_duration : jval;
  c_cost : jval;
  c_recording_url : jval
}.

(** A row of [contacts]. *)
Record contact := mkContact {
  k_id : string;
  k_campaign_id : string;
  k_phone_e164 : string;
  k_status : string;
  k_attempts : option Z;
  k_last_call_id : option nat
}.

(** A row of [campaigns]; [None] is a missing or null concurrency. *)
Record campaign := mkCampaign {
  g_id : string;
  g_status : string;
  g_concurrency : option Z
}.

(** [payload.get("data") or {}]: absent keys read as [None]. *)
Record event_data := mkData {
  d_call_id : jval;
  d_duration : jval;
  d_cost : jval;
  d_recording_url : jval
}.

(** A webhook document (the keys the handler reads). *)
Record webhook_event := mkEvent {
  ev_type : jval;
  ev_type_description : jval;
  ev_event : jval;
  ev_call_id : jval;
  ev_id : jval;
  ev_data : event_data
}.

Inductive event_payload :=
| PWebhook (e : webhook_event)
| PStartFailed (error : string) (phone : string).

(** A row of [call_events]. *)
Record call_event := mkCallEvent {
  e_call_id : option nat;
  e_event_type : string;
  e_payload : event_payload
}.

(** The dicts passed to [.update(...)] on [calls] and [contacts]. *)
Inductive call_patch :=
| SetDizparosId (s : string)                       (* {"dizparos_call_id": ...} *)
| MarkFailed (t : timestamp)                       (* {"status": "failed", "finished_at": ...} *)
| SetCallStatus (s : string)                       (* {"status": s} *)
| MarkFinished (dur cost rec : jval) (t : timestamp).

Inductive contact_patch :=
| MarkCalling (attempts : Z) (last_call : nat)      (* status calling, attempts, last_call_id *)
| SetContactStatus (s : string).

(** Store operations and the gateway request, in the order performed. *)
Inductive op :=
| OpInsertCall (row : call)
| OpUpdateCall (id : nat) (p : call_patch)
| OpUpdateContact (id : string) (p : contact_patch)
| OpInsertEvent (e : call_event)
| OpGateway (phone : string).

Record store := mkStore {
  campaigns : list campaign;
  calls : list call;
  contacts : list contact;
  call_events : list call_event;
  next_id : nat;
  clock : timestamp;
  log : list op
}.

(** Rows an [.update(patch).eq("id", x)] applies to are rewritten by these. *)
Definition apply_call_patch (p : call_patch) (c : call) : call :=
  match p with
  | SetDizparosId s =>
      mkCall (c_id c) (c_campaign_id c) (c_contact_id c) (c_status c) (Some s)
             (c_created_at c) (c_finished_at c) (c_duration c) (c_cost c) (c_recording_url c)
  | MarkFailed t =>
      mkCall (c_id c) (c_campaign_id c) (c_contact_id c) "failed" (c_dizparos_call_id c)
             (c_created_at c) (Some t) (c_duration c) (c_cost c) (c_recording_url c)
  | SetCallStatus s =>
      mkCall (c_id c) (c_campaign_id c) (c_contact_id c) s (c_dizparos_call_id c)
             (c_created_at c) (c_finished_at c) (c_duration c) (c_cost c) (c_recording_url c)
  | MarkFinished dur cost rec t =>
      mkCall (c_id c) (c_campaign_id c) (c_contact_id c) "finished" (c_dizparos_call_id c)
             (c_created_at c) (Some t) dur cost rec
  end.

Definition apply_contact_patch (p : contact_patch) (k : contact) : contact :=
  match p with
  | MarkCalling a l =>
      mkContact (k_id k) (k_campaign_id k) (k_phone_e164 k) "calling" (Some a) (Some l)
  | SetContactStatus s =>
      mkContact (k_id k) (k_campaign_id k) (k_phone_e164 k) s (k_attempts k) (k_last_call_id k)
  end.

Definition update_calls (id : nat) (p : call_patch) (cs : list call) : list call :=
  map (fun c => if Nat.eqb (c_id c) id then apply_call_patch p c else c) cs.

Definition update_contacts (id : string) (p : contact_patch) (ks : list contact)
  : list contact :=
  map (fun k => if String.eqb (k_id k) id then apply_contact_patch p k else k) ks.

(* ------------------------------------------------------------------ *)
(** ** The store monad *)

Definition M (A : Type) : Type := store -> A * store.

Definition ret {A} (a : A) : M A := fun st => (a, st).

Definition bind {A B} (m : M A) (k : A -> M B) : M B :=
  fun st => match m st with (a, st') => k a st' end.

Notation "x <- m ;; k" := (bind m (fun x => k))
  (at level 61, m at next level, right associativity).
Notation "m ;; k" := (bind m (fun _ => k))
  (at level 61, right associativity).

Definition set_calls (cs : list call) (st : store) : store :=
  mkStore (campaigns st) cs (contacts st) (call_events st) (next_id st) (clock st) (log st).
Definition set_contacts (ks : list contact) (st : store) : store :=
  mkStore (campaigns st) (calls st) ks (call_events st) (next_id st) (clock st) (log st).
Definition add_log (o : op) (st : store) : store :=
  mkStore (campaigns st) (calls st) (contacts st) (call_events st) (next_id st) (clock st)
          (log st ++ [o]).

(** [now_utc_iso()] *)
Definition now_utc_iso : M timestamp :=
  fun st => (clock st, mkStore (campaigns st) (calls st) (contacts st) (call_events st)
                               (next_id st) (S (clock st)) (log st)).

(** [sb.table("calls").insert({...}).execute().data[0]]: the store assigns the id. *)
Definition insert_call (row_of : nat -> call) : M call :=
  fun st => let r := row_of (next_id st) in
    (r, mkStore (campaigns st) (calls st ++ [r]) (contacts st) (call_events st)
                (S (next_id st)) (clock st) (log st ++ [OpInsertCall r])).

(** [sb.table("calls").update(p).eq("id", id).execute()] *)
Definition update_call (id : nat) (p : call_patch) : M unit :=
  fun st => (tt, add_log (OpUpdateCall id p) (set_calls (update_calls id p (calls st)) st)).

(** [sb.table("contacts").update(p).eq("id", id).execute()] *)
Definition update_contact (id : string) (p : contact_patch) : M unit :=
  fun st => (tt, add_log (OpUpdateContact id p)
                         (set_contacts (update_contacts id p (contacts st)) st)).

(** [sb.table("call_events").insert({...}).execute()] *)
Definition insert_event (e : call_event) : M unit :=
  fun st => (tt, mkStore (campaigns st) (calls st) (contacts st) (call_events st ++ [e])
                         (next_id st) (clock st) (log st ++ [OpInsertEvent e])).

Definition in_flight_status (s : string) : bool :=
  existsb (String.eqb s) ["created"; "answered"; "transferred"].

(** Rows counted by
    [.eq("campaign_id", cid).in_("status", ["created","answered","transferred"])]. *)
Definition count_in_flight (cid : string) (cs : list call) : Z :=
  Z.of_nat (List.length (filter (fun c =>
    (match c_campaign_id c with Some x => String.eqb x cid | None => false end
     && in_flight_status (c_status c))%bool) cs)).

(** [in_prog.count or 0] *)
Definition count_calls_in_progress (cid : string) : M Z :=
  fun st => (count_in_flight cid (calls st), st).

(** Rows returned by [.eq("campaign_id", cid).eq("status", "pending").limit(n)],
    in table order. *)
Definition pending_contacts (cid : string) (n : Z) (ks : list contact) : list contact :=
  firstn (Z.to_nat n)
    (filter (fun k => (String.eqb (k_campaign_id k) cid
                       && String.eqb (k_status k) "pending")%bool) ks).

Definition select_pending (cid : string) (n : Z) : M (list contact) :=
  fun st => (pending_contacts cid n (contacts st), st).

(* ------------------------------------------------------------------ *)
(** ** Configuration and the voice gateway *)

(** Values read from the environment (before [.strip()]). *)
Record config := mkConfig {
  DIZPAROS_ENDPOINT_env : string;
  DIZPAROS_TOKEN_env : string;
  TRANSFER_DESTINATION_env : string;
  DIZPAROS_WEBHOOK_SECRET_env : string
}.

Definition DIZPAROS_ENDPOINT (cfg : config) := strip (DIZPAROS_ENDPOINT_env cfg).
Definition DIZPAROS_TOKEN (cfg : config) := strip (DIZPAROS_TOKEN_env cfg).
Definition TRANSFER_DESTINATION (cfg : config) := strip (TRANSFER_DESTINATION_env cfg).
Definition DIZPAROS_WEBHOOK_SECRET (cfg : config) := strip (DIZPAROS_WEBHOOK_SECRET_env cfg).

(** [resp.get("data", {})]: absent, JSON null, or an object. *)
Inductive resp_data :=
| RDataMissing
| RDataNull
| RDataDict (call_id : jval).

(** The keys of the gateway's JSON answer that the code reads. *)
Record gw_response := mkResp {
  r_call_id : jval;
  r_id : jval;
  r_data : resp_data
}.

(** The HTTP exchange ([client.post], [raise_for_status], [r.json()]),
    keyed by the call row being dispatched and the phone: [inl msg] is a
    raised exception. *)
Definition http_oracle := nat -> string -> string + gw_response.

(** [dizparos_start_call(phone)] *)
Definition dizparos_start_call (cfg : config) (http : http_oracle) (row : nat)
    (phone : string) : string + gw_response :=
  if String.eqb (DIZPAROS_TOKEN cfg) "" then inl "DIZPAROS_TOKEN não configurado no Render."
  else if String.eqb (TRANSFER_DESTINATION cfg) "" then
    inl "TRANSFER_DESTINATION não configurado no Render."
  else if String.eqb (DIZPAROS_ENDPOINT cfg) "" then
    inl "DIZPAROS_ENDPOINT não configurado no Render."
  else http row phone.

(** [resp.get("call_id") or resp.get("id") or resp.get("data", {}).get("call_id")] *)
Definition extract_call_id (resp : gw_response) : string + jval :=
  if truthy (r_call_id resp) then inr (r_call_id resp)
  else if truthy (r_id resp) then inr (r_id resp)
  else match r_data resp with
       | RDataMissing => inr JNone
       | RDataNull => inl "'NoneType' object has no attribute 'get'"
       | RDataDict c => inr c
       end.

(** The body of the [try] block up to the [dizparos_call_id] update:
    the exception message, or the identifier to store.  (The source
    appends the repr of [resp] to the missing-id message.) *)
Definition start_outcome (cfg : config) (http : http_oracle) (row : nat) (phone : string)
  : string + jval :=
  match dizparos_start_call cfg http row phone with
  | inl e => inl e
  | inr resp =>
      match extract_call_id resp with
      | inl e => inl e
      | inr v => if truthy v then inr v else inl "Resposta do Dizparos sem call_id"
      end
  end.

(** The [await dizparos_start_call(phone)] step, recorded in the log. *)
Definition call_gateway (cfg : config) (http : http_oracle) (row : nat) (phone : string)
  : M (string + jval) :=
  fun st => (start_outcome cfg http row phone, add_log (OpGateway phone) st).

(* ------------------------------------------------------------------ *)
(** ** The dispatch loop ([POST /tick]) *)

(** One iteration of [for c in contacts:]; [true] when [started += 1]. *)
Definition dispatch_contact (cfg : config) (http : http_oracle) (campaign_id : string)
    (c : contact) : M bool :=
  let contact_id := k_id c in
  let phone := k_phone_e164 c in
  let attempts := match k_attempts c with Some a => a | None => 0 end in
  t <- now_utc_iso ;;
  call_row <- insert_call (fun id => mkCall id (Some campaign_id) (Some contact_id) "created"
                                             None (Some t) None JNone JNone JNone) ;;
  update_contact contact_id (MarkCalling (attempts + 1) (c_id call_row)) ;;
  r <- call_gateway cfg http (c_id call_row) phone ;;
  match r with
  | inr diz_call_id =>
      update_call (c_id call_row) (SetDizparosId (py_str diz_call_id)) ;;
      ret true
  | inl e =>
      t' <- now_utc_iso ;;
      update_call (c_id call_row) (MarkFailed t') ;;
      update_contact contact_id (SetContactStatus "failed") ;;
      insert_event (mkCallEvent (Some (c_id call_row)) "start_failed" (PStartFailed e phone)) ;;
      ret false
  end.

(** The [for c in contacts:] loop with its [started] / [errors] counters. *)
Fixpoint dispatch_loop (cfg : config) (http : http_oracle) (campaign_id : string)
    (cs : list contact) (started errors : Z) : M (Z * Z) :=
  match cs with
  | [] => ret (started, errors)
  | c :: rest =>
      ok <- dispatch_contact cfg http campaign_id c ;;
      if ok then dispatch_loop cfg http campaign_id rest (started + 1) errors
      else dispatch_loop cfg http campaign_id rest started (errors + 1)
  end.

(** An entry of [results]: a dict with [reason] or [free_slots]. *)
Record tick_entry := mkEntry {
  t_campaign_id : string;
  t_started : Z;
  t_errors : Z;
  t_reason : option string;
  t_free_slots : option Z
}.

Inductive tick_response :=
| TickMessage (ok : bool) (message : string)            (* {"ok", "message"} *)
| TickResults (ok : bool) (results : list tick_entry).  (* {"ok", "results"} *)

(** [int(camp.get("concurrency") or 5)] *)
Definition effective_concurrency (camp : campaign) : Z :=
  match g_concurrency camp with
  | None => 5
  | Some z => if Z.eqb z 0 then 5 else z
  end.

(** The slot allocation: in-flight count, then [max(concurrency - current, 0)]. *)
Definition slot_allocation (camp : campaign) : M Z :=
  current <- count_calls_in_progress (g_id camp) ;;
  ret (Z.max (effective_concurrency camp - current) 0).

(** The body of [for camp in campaigns:]. *)
Definition campaign_step (cfg : config) (http : http_oracle) (camp : campaign)
  : M tick_entry :=
  let campaign_id := g_id camp in
  free_slots <- slot_allocation camp ;;
  if Z.leb free_slots 0 then
    ret (mkEntry campaign_id 0 0 (Some "sem slots") None)
  else
    cs <- select_pending campaign_id free_slots ;;
    se <- dispatch_loop cfg http campaign_id cs 0 0 ;;
    ret (mkEntry campaign_id (fst se) (snd se) None (Some free_slots)).

Fixpoint campaign_loop (cfg : config) (http : http_oracle) (camps : list campaign)
  : M (list tick_entry) :=
  match camps with
  | [] => ret []
  | camp :: rest =>
      e <- campaign_step cfg http camp ;;
      es <- campaign_loop cfg http rest ;;
      ret (e :: es)
  end.

(** [campaigns] filtered by [status = running] and, when [body.campaign_id]
    is truthy, by [id]. *)
Definition running_campaigns (body_campaign_id : option string) (gs : list campaign)
  : list campaign :=
  filter (fun g => (String.eqb (g_status g) "running"
                    && match body_campaign_id with
                       | Some b => if String.eqb b "" then true else String.eqb (g_id g) b
                       | None => true
                       end)%bool) gs.

Definition select_campaigns (body_campaign_id : option string) : M (list campaign) :=
  fun st => (running_campaigns body_campaign_id (campaigns st), st).

(** [tick(body)] *)
Definition tick (cfg : config) (http : http_oracle) (body_campaign_id : option string)
  : M tick_response :=
  camps <- select_campaigns body_campaign_id ;;
  match camps with
  | [] => ret (TickMessage true "Nenhuma campanha running.")
  | _ =>
      results <- campaign_loop cfg http camps ;;
      ret (TickResults true results)
  end.

(** The reads of one campaign step (allocation and contact selection) and
    the writes that follow them, so that two invocations can be interleaved
    at the store, as two processes serving [/tick] may be. *)
Definition plan_step (camp : campaign) : M (Z * list contact) :=
  free_slots <- slot_allocation camp ;;
  if Z.leb free_slots 0 then ret (free_slots, [])
  else cs <- select_pending (g_id camp) free_slots ;; ret (free_slots, cs).

Definition run_planned (cfg : config) (http : http_oracle) (camp : campaign)
    (pl : Z * list contact) : M tick_entry :=
  let campaign_id := g_id camp in
  let free_slots := fst pl in
  if Z.leb free_slots 0 then
    ret (mkEntry campaign_id 0 0 (Some "sem slots") None)
  else
    se <- dispatch_loop cfg http campaign_id (snd pl) 0 0 ;;
    ret (mkEntry campaign_id (fst se) (snd se) None (Some free_slots)).

(** Two overlapping invocations for one campaign: both read the store
    before either writes. *)
Definition overlapping_steps (cfg : config) (http : http_oracle) (camp : campaign)
  : M (tick_entry * tick_entry) :=
  pa <- plan_step camp ;;
  pb <- plan_step camp ;;
  ea <- run_planned cfg http camp pa ;;
  eb <- run_planned cfg http camp pb ;;
  ret (ea, eb).

(* ------------------------------------------------------------------ *)
(** ** The webhook reconciler ([POST /webhooks/dizparos]) *)

(** [verify_webhook(req)]: [Some (status, detail)] is the raised [HTTPException]. *)
Definition verify_webhook (cfg : config) (x_webhook_secret : option string)
  : option (Z * string) :=
  if String.eqb (DIZPAROS_WEBHOOK_SECRET cfg) "" then None
  else
    let got := strip (match x_webhook_secret with Some h => h | None => "" end) in
    if String.eqb got (DIZPAROS_WEBHOOK_SECRET cfg) then None
    else Some (401, "Webhook secret inválido").

Inductive webhook_response :=
| WhReject (status : Z) (detail : string)
| WhOk (call_id : option nat) (dizparos_call_id : option string) (warning : option string).

(** Python [v == n] for an integer literal [n]. *)
Definition jval_eq_int (v : jval) (n : Z) : bool :=
  match v with
  | JInt z => Z.eqb z n
  | JBool b => Z.eqb (if b then 1 else 0) n
  | _ => false
  end.

(** [str(payload.get("type_description") or payload.get("event")
    or payload.get("type") or "unknown").lower()] *)
Definition event_desc (ev : webhook_event) : string :=
  lower (py_str (py_or (ev_type_description ev)
                  (py_or (ev_event ev) (py_or (ev_type ev) (JStr "unknown"))))).

(** [data.get("call_id") or payload.get("call_id") or payload.get("id")] *)
Definition event_call_id (ev : webhook_event) : jval :=
  py_or (d_call_id (ev_data ev)) (py_or (ev_call_id ev) (ev_id ev)).

(** [.eq("dizparos_call_id", s).limit(1)]: the first matching row. *)
Definition find_by_dizparos_id (s : string) (cs : list call) : option call :=
  find (fun c => match c_dizparos_call_id c with
                 | Some x => String.eqb x s
                 | None => false
                 end) cs.

Definition lookup_call (s : string) : M (option call) :=
  fun st => (find_by_dizparos_id s (calls st), st).

(** The state machine applied to a found call (the [if/elif] chain). *)
Definition apply_transition (ev : webhook_event) (desc : string) (r : call) : M unit :=
  let t := ev_type ev in
  let data := ev_data ev in
  if (jval_eq_int t 2000 || py_in "answered" desc)%bool then
    update_call (c_id r) (SetCallStatus "answered")
  else if (jval_eq_int t 2001 || py_in "transferred" desc)%bool then
    update_call (c_id r) (SetCallStatus "transferred")
  else if (jval_eq_int t 2002 || py_in "finished" desc || py_in "completed" desc)%bool then
    now <- now_utc_iso ;;
    update_call (c_id r)
      (MarkFinished (d_duration data) (d_cost data) (d_recording_url data) now) ;;
    match c_contact_id r with
    | Some k => if String.eqb k "" then ret tt
                else update_contact k (SetContactStatus "done")
    | None => ret tt
    end
  else ret tt.

(** The handler after [verify_webhook], with [payload] already parsed. *)
Definition process_webhook (ev : webhook_event) : M webhook_response :=
  let desc := event_desc ev in
  let diz_call_id := event_call_id ev in
  if negb (truthy diz_call_id) then
    insert_event (mkCallEvent None ("unknown_no_call_id:" ++ desc) (PWebhook ev)) ;;
    ret (WhOk None None (Some "call_id ausente, evento salvo como debug"))
  else
    call_rows <- lookup_call (py_str diz_call_id) ;;
    insert_event (mkCallEvent (option_map c_id call_rows) desc (PWebhook ev)) ;;
    match call_rows with
    | None =>
        t <- now_utc_iso ;;
        insert_call (fun id => mkCall id None None "created" (Some (py_str diz_call_id))
                                      (Some t) None JNone JNone JNone) ;;
        ret (WhOk None None
               (Some "call placeholder criado, aguarde o tick criar vínculo com contact"))
    | Some r =>
        apply_transition ev desc r ;;
        ret (WhOk (Some (c_id r)) (Some (py_str diz_call_id)) None)
    end.

(** [dizparos_webhook(req)] *)
Definition dizparos_webhook (cfg : config) (x_webhook_secret : option string)
    (ev : webhook_event) : M webhook_response :=
  match verify_webhook cfg x_webhook_secret with
  | Some (code, detail) => ret (WhReject code detail)
  | None => process_webhook ev
  end.

(* ------------------------------------------------------------------ *)
(** ** Sample data *)

Definition no_data := mkData JNone JNone JNone JNone.

Definition cfg_ok := mkConfig "https://api.dizparos.com/v1/messaging/send" "tok" "+5511000000000" "".

Definition empty_store := mkStore [] [] [] [] 0%nat 0%nat [].

Definition http_answers (resp : gw_response) : http_oracle := fun _ _ => inr resp.

Example py_str_2002 : py_str (JInt 2002) = "2002". Proof. reflexivity. Qed.
Example lower_mixed : lower "FiNished" = "finished". Proof. reflexivity. Qed.
Example strip_spaces : strip "  s3cret  " = "s3cret". Proof. reflexivity. Qed.
Example py_in_sub : py_in "answered" "unanswered" = true. Proof. reflexivity. Qed.

Definition camp1 := mkCampaign "camp1" "running" (Some 1).

Definition contact_k1 := mkContact "k1" "camp1" "+5511999999999" "pending" None None.

Definition resp_abc := mkResp (JStr "abc") JNone RDataMissing.

Definition store_one_pending :=
  mkStore [camp1] [] [contact_k1] [] 0%nat 0%nat [].

(** A finish event for gateway call "abc" (the spec's scenario shape). *)
Definition finish_abc :=
  mkEvent (JInt 2002) JNone JNone JNone JNone (mkData (JStr "abc") (JInt 42) JNone JNone).

(** A store where call 7 of contact k1 was dispatched as gateway call "abc". *)
Definition store_with_abc :=
  mkStore [camp1]
    [mkCall 7 (Some "camp1") (Some "k1") "created" (Some "abc") (Some 0%nat) None JNone JNone JNone]
    [mkContact "k1" "camp1" "+5511999999999" "calling" (Some 1) (Some 7%nat)] [] 8%nat 1%nat [].

Definition with_clock (n : timestamp) (st : store) : store :=
  mkStore (campaigns st) (calls st) (contacts st) (call_events st) (next_id st) n (log st).

(* ================================================================== *)
(** * Properties *)

(** ** Slot allocation *)

(** C2: the allocation step returns [max(concurrency - in_flight, 0)], where
    [in_flight] counts the campaign's calls in status created, answered or
    transferred, and leaves the store unchanged. *)
Theorem slot_allocation_free_slots (camp : campaign) (st : store) :
  slot_allocation camp st
  = (Z.max (effective_concurrency camp - count_in_flight (g_id camp) (calls st)) 0, st).
Proof. reflexivity. Qed.

(** C10: a campaign whose concurrency is missing, null or zero is given the
    budget 5 when its free slots are computed. *)
Theorem default_concurrency_five (camp : campaign) (st : store)
    (H : g_concurrency camp = None \/ g_concurrency camp = Some 0) :
  effective_concurrency camp = 5
  /\ fst (slot_allocation camp st) = Z.max (5 - count_in_flight (g_id camp) (calls st)) 0.
Proof.
  assert (E : effective_concurrency camp = 5).
  { unfold effective_concurrency; destruct H as [H | H]; rewrite H; reflexivity. }
  split; [exact E |]. cbn. rewrite E. reflexivity.
Qed.

Lemma default_concurrency_five_witness :
  (g_concurrency (mkCampaign "c" "running" (Some 0)) = None
   \/ g_concurrency (mkCampaign "c" "running" (Some 0)) = Some 0)
  /\ effective_concurrency (mkCampaign "c" "running" (Some 0)) = 5
  /\ fst (slot_allocation (mkCampaign "c" "running" (Some 0)) empty_store)
     = Z.max (5 - count_in_flight "c" (calls empty_store)) 0.
Proof.
  split; [right; reflexivity |].
  apply (default_concurrency_five (mkCampaign "c" "running" (Some 0)) empty_store).
  right; reflexivity.
Defined.

(** ** Webhook authentication *)

Lemma process_webhook_not_rejected ev st code d :
  fst (process_webhook ev st) <> WhReject code d.
Proof.
  unfold process_webhook, bind, ret, lookup_call, insert_event, insert_call, now_utc_iso.
  destruct (negb (truthy (event_call_id ev))); cbn; [discriminate |].
  destruct (find_by_dizparos_id _ _) as [r |]; cbn; [| discriminate].
  unfold apply_transition, bind, ret, update_call, update_contact, now_utc_iso.
  repeat match goal with
         | |- context [if ?b then _ else _] => destruct b
         | |- context [match c_contact_id r with _ => _ end] => destruct (c_contact_id r)
         end; cbn; discriminate.
Qed.

(** C7 (as corrected): the webhook is rejected with 401 and the store left
    unchanged exactly when a secret is configured and the
    [x-webhook-secret] header, stripped of surrounding whitespace (an
    absent header reads as empty), differs from it; with no secret
    configured no request is rejected. *)
Theorem webhook_secret_gate (cfg : config) (hdr : option string)
    (ev : webhook_event) (st : store) :
  dizparos_webhook cfg hdr ev st = (WhReject 401 "Webhook secret inválido", st)
  <-> DIZPAROS_WEBHOOK_SECRET cfg <> ""
      /\ strip (match hdr with Some h => h | None => "" end) <> DIZPAROS_WEBHOOK_SECRET cfg.
Proof.
  unfold dizparos_webhook, verify_webhook.
  destruct (String.eqb_spec (DIZPAROS_WEBHOOK_SECRET cfg) "") as [E | E].
  - split.
    + intros H. exfalso. eapply process_webhook_not_rejected. rewrite H. reflexivity.
    + intros [H _]. contradiction.
  - destruct (String.eqb_spec (strip (match hdr with Some h => h | None => "" end))
                              (DIZPAROS_WEBHOOK_SECRET cfg)) as [G | G].
    + split.
      * intros H. exfalso. eapply process_webhook_not_rejected. rewrite H. reflexivity.
      * intros [_ H]. contradiction.
    + split; [intros _; split; assumption | reflexivity].
Qed.

(** C7 counterexample: with secret "s3cret" configured, a header " s3cret"
    is not equal to the secret and yet the request is accepted. *)
Lemma webhook_secret_padded_header_accepted :
  let cfg := mkConfig "https://api.dizparos.com/v1/messaging/send" "tok" "+5511000000000" "s3cret" in
  Some " s3cret" <> Some (DIZPAROS_WEBHOOK_SECRET cfg)
  /\ verify_webhook cfg (Some " s3cret") = None
  /\ fst (dizparos_webhook cfg (Some " s3cret") finish_abc store_with_abc)
     = WhOk (Some 7%nat) (Some "abc") None.
Proof.
  cbv zeta. split; [| split; reflexivity].
  intros H. discriminate H.
Qed.

(** ** Placeholder calls *)

(** C8: an accepted event whose gateway call id matches no call creates
    one placeholder call (next id, that gateway id, status created, no
    campaign, no contact), leaves every contact untouched and answers
    [ok] with a warning. *)
Theorem webhook_unknown_call_placeholder (cfg : config) (hdr : option string)
    (ev : webhook_event) (st : store)
    (Hv : verify_webhook cfg hdr = None)
    (Hid : truthy (event_call_id ev) = true)
    (Hnf : find_by_dizparos_id (py_str (event_call_id ev)) (calls st) = None) :
  let (resp, st') := dizparos_webhook cfg hdr ev st in
  calls st' = (calls st ++ [mkCall (next_id st) None None "created"
                              (Some (py_str (event_call_id ev))) (Some (clock st)) None
                              JNone JNone JNone])%list
  /\ contacts st' = contacts st
  /\ resp = WhOk None None
              (Some "call placeholder criado, aguarde o tick criar vínculo com contact").
Proof.
  unfold dizparos_webhook. rewrite Hv.
  unfold process_webhook, bind, ret, lookup_call, insert_event, insert_call, now_utc_iso.
  rewrite Hid. cbn. rewrite Hnf. cbn. auto.
Qed.

Lemma webhook_unknown_call_placeholder_witness :
  verify_webhook cfg_ok None = None
  /\ truthy (event_call_id finish_abc) = true
  /\ find_by_dizparos_id (py_str (event_call_id finish_abc)) (calls store_one_pending) = None
  /\ (let (resp, st') := dizparos_webhook cfg_ok None finish_abc store_one_pending in
      calls st' = (calls store_one_pending
                   ++ [mkCall (next_id store_one_pending) None None "created"
                         (Some (py_str (event_call_id finish_abc)))
                         (Some (clock store_one_pending)) None JNone JNone JNone])%list
      /\ contacts st' = contacts store_one_pending
      /\ resp = WhOk None None
                  (Some "call placeholder criado, aguarde o tick criar vínculo com contact")).
Proof.
  split; [reflexivity | split; [reflexivity | split; [reflexivity |]]].
  apply webhook_unknown_call_placeholder; reflexivity.
Defined.

(** ** Counterexamples on concrete stores *)

(** C1 counterexample: campaign budget 1, one pending contact, two
    invocations that both read the store before either writes: two calls
    end up in flight. *)
Lemma overlapping_ticks_exceed_budget :
  let st' := snd (overlapping_steps cfg_ok (http_answers resp_abc) camp1 store_one_pending) in
  effective_concurrency camp1 = 1
  /\ count_in_flight "camp1" (calls st') = 2
  /\ count_in_flight "camp1" (calls store_one_pending) = 0.
Proof. vm_compute. auto. Qed.

(** C3 counterexample: a finish event for an unknown gateway call, applied
    once, leaves a placeholder in status created; replayed, it finishes it. *)
Lemma webhook_replay_changes_placeholder :
  let st1 := snd (dizparos_webhook cfg_ok None finish_abc store_one_pending) in
  let st2 := snd (dizparos_webhook cfg_ok None finish_abc st1) in
  map c_status (calls st1) = ["created"]
  /\ map c_status (calls st2) = ["finished"].
Proof. vm_compute. auto. Qed.

(** C4 counterexample: the description "unanswered" is none of the event
    names, yet it moves the call to answered (substring match). *)
Lemma webhook_substring_match :
  let ev := mkEvent JNone (JStr "UnAnswered") JNone JNone JNone
                    (mkData (JStr "abc") JNone JNone JNone) in
  let st' := snd (dizparos_webhook cfg_ok None ev store_with_abc) in
  ~ In (event_desc ev) ["answered"; "transferred"; "finished"; "completed"]
  /\ map c_status (calls st') = ["answered"].
Proof.
  cbv zeta. split.
  - vm_compute. intros H. repeat (destruct H as [H | H]; [discriminate H |]). exact H.
  - vm_compute. reflexivity.
Qed.

(** C9 counterexample: with no running campaign the response carries a
    message and no [results] list; a campaign without free slots is
    recorded with reason "sem slots". *)
Lemma tick_response_shapes :
  fst (tick cfg_ok (http_answers resp_abc) None empty_store)
    = TickMessage true "Nenhuma campanha running."
  /\ fst (tick cfg_ok (http_answers resp_abc) None store_with_abc)
    = TickResults true [mkEntry "camp1" 0 0 (Some "sem slots") None].
Proof. split; vm_compute; reflexivity. Qed.

(** ** Dispatching one contact *)

Definition is_gateway_op (o : op) : bool :=
  match o with OpGateway _ => true | _ => false end.

(** C5: dispatching a contact first inserts its call row in status created,
    then marks the contact calling with [attempts + 1] and the new row as
    [last_call_id], and only then calls the gateway, once. *)
Theorem dispatch_writes_before_gateway (cfg : config) (http : http_oracle)
    (cid : string) (c : contact) (st : store) :
  let row := mkCall (next_id st) (Some cid) (Some (k_id c)) "created" None
                    (Some (clock st)) None JNone JNone JNone in
  let attempts := match k_attempts c with Some a => a | None => 0 end in
  exists rest,
    log (snd (dispatch_contact cfg http cid c st))
    = (log st ++ [OpInsertCall row;
                  OpUpdateContact (k_id c) (MarkCalling (attempts + 1) (next_id st));
                  OpGateway (k_phone_e164 c)] ++ rest)%list
    /\ existsb is_gateway_op rest = false.
Proof.
  cbv zeta.
  unfold dispatch_contact, bind, ret, now_utc_iso, insert_call, update_contact,
    call_gateway, update_call, insert_event, add_log, set_calls, set_contacts.
  cbn.
  destruct (start_outcome cfg http (next_id st) (k_phone_e164 c)); cbn;
    eexists; (split; [rewrite <- !app_assoc; reflexivity | reflexivity]).
Qed.

Lemma in_update_contacts_status (id s : string) (ks : list contact) (k : contact) :
  In k (update_contacts id (SetContactStatus s) ks) -> k_id k = id -> k_status k = s.
Proof.
  unfold update_contacts. rewrite in_map_iff. intros [x [Hx _]] Hid. subst k.
  destruct (String.eqb_spec (k_id x) id) as [E | E]; [reflexivity | contradiction].
Qed.

(** C6: when the gateway request, the configuration check or the extraction
    of the call id fails with message [err], the new call row ends failed
    with [finished_at] the time read after the attempt, every row of the
    contact is failed, exactly one start_failed event with the message and
    the phone is appended, and the loop goes on with the next contact. *)
Theorem dispatch_failure_recorded (cfg : config) (http : http_oracle)
    (cid : string) (c : contact) (st : store) (err : string)
    (Hfail : start_outcome cfg http (next_id st) (k_phone_e164 c) = inl err) :
  let st' := snd (dispatch_contact cfg http cid c st) in
  fst (dispatch_contact cfg http cid c st) = false
  /\ (exists pre, calls st'
        = (pre ++ [mkCall (next_id st) (Some cid) (Some (k_id c)) "failed" None
                          (Some (clock st)) (Some (S (clock st))) JNone JNone JNone])%list)
  /\ (forall k, In k (contacts st') -> k_id k = k_id c -> k_status k = "failed")
  /\ call_events st'
     = (call_events st ++ [mkCallEvent (Some (next_id st)) "start_failed"
                                       (PStartFailed err (k_phone_e164 c))])%list
  /\ (forall rest started errors,
        dispatch_loop cfg http cid (c :: rest) started errors st
        = dispatch_loop cfg http cid rest started (errors + 1) st').
Proof.
  cbv zeta.
  unfold dispatch_contact, bind, ret, now_utc_iso, insert_call, update_contact,
    call_gateway, update_call, insert_event, add_log, set_calls, set_contacts.
  cbn. rewrite Hfail. cbn.
  split; [reflexivity |]. split; [| split; [| split]].
  - unfold update_calls. rewrite map_app. cbn. rewrite Nat.eqb_refl.
    eexists. reflexivity.
  - intros k Hk Hid. exact (in_update_contacts_status _ _ _ _ Hk Hid).
  - reflexivity.
  - intros rest started errors. cbn.
    unfold dispatch_contact, bind, ret, now_utc_iso, insert_call, update_contact,
      call_gateway, update_call, insert_event, add_log, set_calls, set_contacts.
    cbn. rewrite Hfail. reflexivity.
Qed.

Definition http_down : http_oracle := fun _ _ => inl "Server error '500 Internal Server Error'".

Lemma dispatch_failure_recorded_witness :
  start_outcome cfg_ok http_down (next_id store_one_pending) (k_phone_e164 contact_k1)
    = inl "Server error '500 Internal Server Error'"
  /\ fst (dispatch_contact cfg_ok http_down "camp1" contact_k1 store_one_pending) = false.
Proof.
  split; [reflexivity |].
  apply (dispatch_failure_recorded cfg_ok http_down "camp1" contact_k1 store_one_pending
           "Server error '500 Internal Server Error'").
  reflexivity.
Defined.

(** ** In-flight accounting of a tick run in isolation *)

Definition counted (x : string) (c : call) : bool :=
  (match c_campaign_id c with Some y => String.eqb y x | None => false end
   && in_flight_status (c_status c))%bool.

Lemma count_in_flight_nil x : count_in_flight x [] = 0.
Proof. reflexivity. Qed.

Lemma count_in_flight_cons x c cs :
  count_in_flight x (c :: cs) = (if counted x c then 1 else 0) + count_in_flight x cs.
Proof.
  unfold count_in_flight, counted. cbn.
  destruct (_ && _)%bool; cbn [List.length]; lia.
Qed.

Lemma count_in_flight_app x cs ds :
  count_in_flight x (cs ++ ds) = count_in_flight x cs + count_in_flight x ds.
Proof.
  induction cs as [| c cs IH]; cbn [app].
  - rewrite count_in_flight_nil. lia.
  - rewrite !count_in_flight_cons, IH. lia.
Qed.

Lemma count_in_flight_nonneg x cs : 0 <= count_in_flight x cs.
Proof. unfold count_in_flight. lia. Qed.

(** A patch that never puts a row into an in-flight status. *)
Definition not_reviving (p : call_patch) : Prop :=
  forall x c, counted x (apply_call_patch p c) = true -> counted x c = true.

Lemma count_update_calls_le x id p cs :
  not_reviving p -> count_in_flight x (update_calls id p cs) <= count_in_flight x cs.
Proof.
  intros Hp. induction cs as [| c cs IH]; [cbn; lia |].
  unfold update_calls in *. cbn [map]. rewrite !count_in_flight_cons.
  destruct (Nat.eqb (c_id c) id).
  - specialize (Hp x c).
    destruct (counted x (apply_call_patch p c)), (counted x c); try lia.
    all: discriminate (Hp eq_refl).
  - lia.
Qed.

Lemma set_dizparos_not_reviving s : not_reviving (SetDizparosId s).
Proof. intros x c H. exact H. Qed.

Lemma mark_failed_not_reviving t : not_reviving (MarkFailed t).
Proof.
  intros x c H. unfold counted in H. cbn in H.
  rewrite andb_false_r in H. discriminate H.
Qed.

Lemma dispatch_contact_count cfg http cid c st x :
  count_in_flight x (calls (snd (dispatch_contact cfg http cid c st)))
  <= count_in_flight x (calls st) + (if String.eqb cid x then 1 else 0).
Proof.
  unfold dispatch_contact, bind, ret, now_utc_iso, insert_call, update_contact,
    call_gateway, update_call, insert_event, add_log, set_calls, set_contacts.
  cbn -[update_calls update_contacts count_in_flight].
  set (row := mkCall (next_id st) (Some cid) (Some (k_id c)) "created" None
                     (Some (clock st)) None JNone JNone JNone).
  assert (Hrow : count_in_flight x (calls st ++ [row])
                 = count_in_flight x (calls st) + (if String.eqb cid x then 1 else 0)).
  { rewrite count_in_flight_app, count_in_flight_cons, count_in_flight_nil.
    unfold counted; cbn. destruct (String.eqb cid x); cbn; lia. }
  destruct (start_outcome cfg http (next_id st) (k_phone_e164 c));
    cbn -[update_calls update_contacts count_in_flight].
  - rewrite <- Hrow. apply count_update_calls_le, mark_failed_not_reviving.
  - rewrite <- Hrow. apply count_update_calls_le, set_dizparos_not_reviving.
Qed.

Lemma dispatch_loop_count cfg http cid cs : forall started errors st x,
  count_in_flight x (calls (snd (dispatch_loop cfg http cid cs started errors st)))
  <= count_in_flight x (calls st)
     + (if String.eqb cid x then Z.of_nat (List.length cs) else 0).
Proof.
  induction cs as [| c cs IH]; intros started errors st x.
  - cbn. destruct (String.eqb cid x); lia.
  - cbn [dispatch_loop]. unfold bind at 1.
    pose proof (dispatch_contact_count cfg http cid c st x) as Hc.
    destruct (dispatch_contact cfg http cid c st) as [ok st1] eqn:E. cbn in Hc.
    assert (Hr : count_in_flight x
                   (calls (snd ((if ok then dispatch_loop cfg http cid cs (started + 1) errors
                                 else dispatch_loop cfg http cid cs started (errors + 1)) st1)))
                 <= count_in_flight x (calls st1)
                    + (if String.eqb cid x then Z.of_nat (List.length cs) else 0))
      by (destruct ok; apply IH).
    cbn [List.length]. destruct (String.eqb cid x); lia.
Qed.

Lemma pending_contacts_length cid n ks :
  0 < n -> Z.of_nat (List.length (pending_contacts cid n ks)) <= n.
Proof.
  intros Hn. unfold pending_contacts.
  pose proof (firstn_le_length (Z.to_nat n)
               (filter (fun k => (String.eqb (k_campaign_id k) cid
                                  && String.eqb (k_status k) "pending")%bool) ks)).
  lia.
Qed.

Lemma campaign_step_own cfg http camp st :
  count_in_flight (g_id camp) (calls (snd (campaign_step cfg http camp st)))
  <= Z.max (effective_concurrency camp) (count_in_flight (g_id camp) (calls st)).
Proof.
  unfold campaign_step, slot_allocation, count_calls_in_progress, select_pending, bind, ret.
  cbn beta iota.
  set (cur := count_in_flight (g_id camp) (calls st)).
  set (free := Z.max (effective_concurrency camp - cur) 0).
  destruct (Z.leb_spec free 0) as [Hf | Hf]; cbn [snd]; [lia |].
  set (cs := pending_contacts (g_id camp) free (contacts st)).
  pose proof (pending_contacts_length (g_id camp) free (contacts st) Hf) as Hl.
  pose proof (dispatch_loop_count cfg http (g_id camp) cs 0 0 st (g_id camp)) as Hd.
  rewrite String.eqb_refl in Hd.
  destruct (dispatch_loop cfg http (g_id camp) cs 0 0 st) as [se st'].
  cbn [snd] in *. unfold cs, free, cur in *. lia.
Qed.

Lemma campaign_step_other cfg http camp st x :
  g_id camp <> x ->
  count_in_flight x (calls (snd (campaign_step cfg http camp st)))
  <= count_in_flight x (calls st).
Proof.
  intros Hx.
  unfold campaign_step, slot_allocation, count_calls_in_progress, select_pending, bind, ret.
  cbn beta iota.
  destruct (Z.leb _ 0); cbn [snd]; [lia |].
  pose proof (dispatch_loop_count cfg http (g_id camp)
                (pending_contacts (g_id camp)
                   (Z.max (effective_concurrency camp
                           - count_in_flight (g_id camp) (calls st)) 0) (contacts st))
                0 0 st x) as Hd.
  apply String.eqb_neq in Hx. rewrite Hx in Hd.
  destruct (dispatch_loop _ _ _ _ _ _ _) as [se st'].
  cbn [snd] in *. lia.
Qed.

Lemma campaign_loop_other cfg http camps : forall st x,
  (forall camp, In camp camps -> g_id camp <> x) ->
  count_in_flight x (calls (snd (campaign_loop cfg http camps st)))
  <= count_in_flight x (calls st).
Proof.
  induction camps as [| c rest IH]; intros st x Hx; [cbn; lia |].
  cbn [campaign_loop]. unfold bind at 1.
  pose proof (campaign_step_other cfg http c st x (Hx c (or_introl eq_refl))) as Hc.
  destruct (campaign_step cfg http c st) as [e st1]. cbn [snd] in Hc.
  unfold bind, ret.
  pose proof (IH st1 x (fun camp H => Hx camp (or_intror H))) as Hr.
  destruct (campaign_loop cfg http rest st1) as [es st2]. cbn [snd] in *. lia.
Qed.

Lemma NoDup_map_inj {A B} (f : A -> B) (l : list A) a b :
  NoDup (map f l) -> In a l -> In b l -> f a = f b -> a = b.
Proof.
  induction l as [| y l IH]; intros Hnd Ha Hb Hf; [destruct Ha |].
  cbn in Hnd. inversion Hnd as [| ? ? Hy Hnd']; subst.
  destruct Ha as [<- | Ha], Hb as [<- | Hb]; auto.
  - exfalso. apply Hy. rewrite Hf. apply in_map. exact Hb.
  - exfalso. apply Hy. rewrite <- Hf. apply in_map. exact Ha.
Qed.

Lemma campaign_loop_own cfg http camps : forall st camp,
  NoDup (map g_id camps) -> In camp camps ->
  count_in_flight (g_id camp) (calls (snd (campaign_loop cfg http camps st)))
  <= Z.max (effective_concurrency camp) (count_in_flight (g_id camp) (calls st)).
Proof.
  induction camps as [| c rest IH]; intros st camp Hnd Hin; [destruct Hin |].
  cbn in Hnd. inversion Hnd as [| ? ? Hc Hnd']; subst.
  cbn [campaign_loop]. unfold bind at 1.
  destruct Hin as [<- | Hin].
  - pose proof (campaign_step_own cfg http c st) as Hs.
    destruct (campaign_step cfg http c st) as [e st1]. cbn [snd] in Hs.
    unfold bind, ret.
    assert (Hr : count_in_flight (g_id c) (calls (snd (campaign_loop cfg http rest st1)))
                 <= count_in_flight (g_id c) (calls st1)).
    { apply campaign_loop_other. intros camp Hcamp E. apply Hc.
      rewrite <- E. apply in_map. exact Hcamp. }
    destruct (campaign_loop cfg http rest st1) as [es st2]. cbn [snd] in *. lia.
  - assert (Hne : g_id c <> g_id camp).
    { intros E. apply Hc. rewrite E. apply in_map. exact Hin. }
    pose proof (campaign_step_other cfg http c st (g_id camp) Hne) as Hs.
    destruct (campaign_step cfg http c st) as [e st1]. cbn [snd] in Hs.
    unfold bind, ret.
    pose proof (IH st1 camp Hnd' Hin) as Hr.
    destruct (campaign_loop cfg http rest st1) as [es st2]. cbn [snd] in *. lia.
Qed.

Lemma running_campaigns_NoDup (body_campaign_id : option string) (gs : list campaign) :
  NoDup (map g_id gs) -> NoDup (map g_id (running_campaigns body_campaign_id gs)).
Proof.
  unfold running_campaigns.
  induction gs as [| g gs IH]; cbn; intros Hnd; [constructor |].
  apply NoDup_cons_iff in Hnd as [Hg Hnd].
  destruct (_ && _)%bool; cbn; [| exact (IH Hnd)].
  apply NoDup_cons; [| exact (IH Hnd)].
  rewrite in_map_iff. intros [g' [Eid Hin]]. apply filter_In in Hin as [Hin _].
  apply Hg. rewrite <- Eid. apply in_map. exact Hin.
Qed.

Definition campaign_eq_dec (a b : campaign) : {a = b} + {a <> b}.
Proof.
  decide equality.
  all: first [apply string_dec | decide equality; apply Z.eq_dec].
Defined.

(** C1 (as corrected): for a tick that runs with no other tick or webhook
    interleaved, and campaign ids unique, every campaign's in-flight count
    afterwards is at most the larger of its budget and its in-flight count
    before; a campaign within its budget stays within it. *)
Theorem tick_in_flight_within_budget (cfg : config) (http : http_oracle)
    (body_campaign_id : option string) (st : store) (camp : campaign)
    (Hin : In camp (campaigns st))
    (Hnd : NoDup (map g_id (campaigns st))) :
  count_in_flight (g_id camp) (calls (snd (tick cfg http body_campaign_id st)))
  <= Z.max (effective_concurrency camp) (count_in_flight (g_id camp) (calls st)).
Proof.
  unfold tick, bind at 1, select_campaigns.
  pose proof (running_campaigns_NoDup body_campaign_id (campaigns st) Hnd) as Hnd'.
  assert (Hsub : forall g, In g (running_campaigns body_campaign_id (campaigns st)) ->
                           In g (campaigns st))
    by (intros g Hg; apply filter_In in Hg as [Hg _]; exact Hg).
  set (camps := running_campaigns body_campaign_id (campaigns st)) in *.
  assert (Hloop : count_in_flight (g_id camp) (calls (snd (campaign_loop cfg http camps st)))
                  <= Z.max (effective_concurrency camp)
                           (count_in_flight (g_id camp) (calls st))).
  { destruct (in_dec campaign_eq_dec camp camps)
      as [Hc | Hc].
    - apply campaign_loop_own; assumption.
    - pose proof (campaign_loop_other cfg http camps st (g_id camp)) as Ho.
      enough (count_in_flight (g_id camp) (calls (snd (campaign_loop cfg http camps st)))
              <= count_in_flight (g_id camp) (calls st)) by lia.
      apply Ho. intros g Hg E. apply Hc.
      rewrite <- (NoDup_map_inj g_id (campaigns st) g camp Hnd (Hsub g Hg) Hin E).
      exact Hg. }
  clearbody camps. destruct camps as [| c0 cs0]; unfold bind, ret; cbn [snd]; [lia |].
  destruct (campaign_loop cfg http (c0 :: cs0) st) as [rs st'] eqn:E.
  cbn [snd] in *. exact Hloop.
Qed.

Lemma tick_in_flight_within_budget_witness :
  In camp1 (campaigns store_one_pending)
  /\ NoDup (map g_id (campaigns store_one_pending))
  /\ count_in_flight (g_id camp1)
       (calls (snd (tick cfg_ok (http_answers resp_abc) None store_one_pending)))
     <= Z.max (effective_concurrency camp1)
              (count_in_flight (g_id camp1) (calls store_one_pending)).
Proof.
  assert (H1 : In camp1 (campaigns store_one_pending)) by (left; reflexivity).
  assert (H2 : NoDup (map g_id (campaigns store_one_pending)))
    by (constructor; [intros [] | constructor]).
  split; [exact H1 | split; [exact H2 |]].
  exact (tick_in_flight_within_budget cfg_ok (http_answers resp_abc) None
           store_one_pending camp1 H1 H2).
Defined.

(** ** The webhook state machine *)

(** The event classes of the state machine, as the corrected claim states
    them: code 2000 or a lower-cased description containing "answered";
    else code 2001 or one containing "transferred"; else code 2002 or one
    containing "finished" or "completed"; else no transition. *)
Inductive event_kind := KAnswered | KTransferred | KFinished | KOther.

Definition spec_event_kind (ev : webhook_event) : event_kind :=
  let d := event_desc ev in
  if (jval_eq_int (ev_type ev) 2000 || py_in "answered" d)%bool then KAnswered
  else if (jval_eq_int (ev_type ev) 2001 || py_in "transferred" d)%bool then KTransferred
  else if (jval_eq_int (ev_type ev) 2002 || py_in "finished" d || py_in "completed" d)%bool
  then KFinished
  else KOther.

(** Effect of a transition on the calls table: rows with the found id. *)
Definition transition_calls (k : event_kind) (id : nat) (ev : webhook_event)
    (t : timestamp) (cs : list call) : list call :=
  match k with
  | KAnswered => update_calls id (SetCallStatus "answered") cs
  | KTransferred => update_calls id (SetCallStatus "transferred") cs
  | KFinished =>
      update_calls id (MarkFinished (d_duration (ev_data ev)) (d_cost (ev_data ev))
                                    (d_recording_url (ev_data ev)) t) cs
  | KOther => cs
  end.

(** Effect on the contacts table: the linked contact is done after a finish. *)
Definition transition_contacts (k : event_kind) (linked : option string)
    (ks : list contact) : list contact :=
  match k, linked with
  | KFinished, Some c =>
      if String.eqb c "" then ks else update_contacts c (SetContactStatus "done") ks
  | _, _ => ks
  end.

Lemma process_webhook_found ev st r :
  truthy (event_call_id ev) = true ->
  find_by_dizparos_id (py_str (event_call_id ev)) (calls st) = Some r ->
  fst (process_webhook ev st) = WhOk (Some (c_id r)) (Some (py_str (event_call_id ev))) None
  /\ calls (snd (process_webhook ev st))
     = transition_calls (spec_event_kind ev) (c_id r) ev (clock st) (calls st)
  /\ contacts (snd (process_webhook ev st))
     = transition_contacts (spec_event_kind ev) (c_contact_id r) (contacts st).
Proof.
  intros Hid Hf.
  unfold process_webhook, bind, ret, lookup_call, insert_event.
  rewrite Hid. cbn [negb]. rewrite Hf.
  unfold apply_transition, spec_event_kind, transition_calls, transition_contacts.
  set (d := event_desc ev).
  destruct (jval_eq_int (ev_type ev) 2000 || py_in "answered" d)%bool;
    [cbn; auto |].
  destruct (jval_eq_int (ev_type ev) 2001 || py_in "transferred" d)%bool;
    [cbn; auto |].
  destruct (jval_eq_int (ev_type ev) 2002 || py_in "finished" d || py_in "completed" d)%bool;
    [| cbn; auto].
  unfold bind, ret, now_utc_iso, update_call, update_contact.
  destruct (c_contact_id r) as [k |]; [destruct (String.eqb k "") |]; cbn; auto.
Qed.

(** C4 (as corrected): for an accepted event whose gateway call id matches
    a call, the handler moves that call to answered (code 2000 or a
    description containing "answered"), else to transferred (2001 or
    "transferred"), else to finished with the event's duration, cost and
    recording url and the current time as [finished_at], marking the linked
    contact done (2002, "finished" or "completed"); any other event changes
    no call and no contact. *)
Theorem webhook_state_machine (cfg : config) (hdr : option string)
    (ev : webhook_event) (st : store) (r : call)
    (Hv : verify_webhook cfg hdr = None)
    (Hid : truthy (event_call_id ev) = true)
    (Hf : find_by_dizparos_id (py_str (event_call_id ev)) (calls st) = Some r) :
  let (resp, st') := dizparos_webhook cfg hdr ev st in
  resp = WhOk (Some (c_id r)) (Some (py_str (event_call_id ev))) None
  /\ calls st' = transition_calls (spec_event_kind ev) (c_id r) ev (clock st) (calls st)
  /\ contacts st' = transition_contacts (spec_event_kind ev) (c_contact_id r) (contacts st).
Proof.
  unfold dizparos_webhook. rewrite Hv.
  pose proof (process_webhook_found ev st r Hid Hf) as H.
  destruct (process_webhook ev st) as [resp st']. exact H.
Qed.

Definition call7_abc :=
  mkCall 7 (Some "camp1") (Some "k1") "created" (Some "abc") (Some 0%nat) None JNone JNone JNone.

Lemma webhook_state_machine_witness :
  verify_webhook cfg_ok None = None
  /\ truthy (event_call_id finish_abc) = true
  /\ find_by_dizparos_id (py_str (event_call_id finish_abc)) (calls store_with_abc)
     = Some call7_abc
  /\ (let (resp, st') := dizparos_webhook cfg_ok None finish_abc store_with_abc in
      resp = WhOk (Some (c_id call7_abc)) (Some (py_str (event_call_id finish_abc))) None
      /\ calls st' = transition_calls (spec_event_kind finish_abc) (c_id call7_abc)
                                      finish_abc (clock store_with_abc) (calls store_with_abc)
      /\ contacts st' = transition_contacts (spec_event_kind finish_abc)
                                            (c_contact_id call7_abc) (contacts store_with_abc)).
Proof.
  split; [reflexivity | split; [reflexivity | split; [reflexivity |]]].
  apply webhook_state_machine; reflexivity.
Defined.

(** The spec's scenario: code 2002 for "abc" finishes call 7 with duration
    42 and marks contact k1 done. *)
Example webhook_finish_scenario :
  let st' := snd (dizparos_webhook cfg_ok None finish_abc store_with_abc) in
  map (fun c => (c_status c, c_duration c)) (calls st') = [("finished", JInt 42)]
  /\ map k_status (contacts st') = ["done"].
Proof. vm_compute. auto. Qed.

(** ** Replaying a webhook *)

Definition erase_finished_at (c : call) : call :=
  mkCall (c_id c) (c_campaign_id c) (c_contact_id c) (c_status c) (c_dizparos_call_id c)
         (c_created_at c) None (c_duration c) (c_cost c) (c_recording_url c).

Lemma find_map {A} (P : A -> bool) (f : A -> A) (l : list A) :
  (forall x, P (f x) = P x) -> find P (map f l) = option_map f (find P l).
Proof.
  intros HP. induction l as [| x l IH]; [reflexivity |].
  cbn. rewrite HP. destruct (P x); [reflexivity | exact IH].
Qed.

Lemma apply_call_patch_id p c : c_id (apply_call_patch p c) = c_id c.
Proof. destruct p; reflexivity. Qed.

Lemma update_calls_overwrite id p q cs :
  (forall c, apply_call_patch q (apply_call_patch p c) = apply_call_patch q c) ->
  update_calls id q (update_calls id p cs) = update_calls id q cs.
Proof.
  intros H. unfold update_calls. rewrite map_map. apply map_ext. intros c.
  destruct (Nat.eqb (c_id c) id) eqn:E.
  - rewrite apply_call_patch_id, E. apply H.
  - rewrite E. reflexivity.
Qed.

Lemma transition_calls_twice k id ev t1 t2 cs :
  transition_calls k id ev t2 (transition_calls k id ev t1 cs)
  = transition_calls k id ev t2 cs.
Proof.
  destruct k; unfold transition_calls; try reflexivity;
    apply update_calls_overwrite; reflexivity.
Qed.

Lemma transition_contacts_twice k l ks :
  transition_contacts k l (transition_contacts k l ks) = transition_contacts k l ks.
Proof.
  destruct k, l as [c |]; try reflexivity. cbn.
  destruct (String.eqb c ""); [reflexivity |].
  unfold update_contacts. rewrite map_map. apply map_ext. intros k.
  destruct (String.eqb (k_id k) c) eqn:E; cbn; rewrite ?E; reflexivity.
Qed.

Lemma transition_calls_erase k id ev t1 t2 cs :
  map erase_finished_at (transition_calls k id ev t1 cs)
  = map erase_finished_at (transition_calls k id ev t2 cs).
Proof.
  destruct k; try reflexivity; cbn; unfold update_calls; rewrite !map_map;
    apply map_ext; intros c; destruct (Nat.eqb (c_id c) id); reflexivity.
Qed.

Lemma find_transition_calls s k id ev t cs r :
  find_by_dizparos_id s cs = Some r ->
  exists r', find_by_dizparos_id s (transition_calls k id ev t cs) = Some r'
             /\ c_id r' = c_id r /\ c_contact_id r' = c_contact_id r.
Proof.
  intros Hf. destruct k; unfold transition_calls; try (exists r; auto; fail);
    unfold find_by_dizparos_id, update_calls in *; rewrite find_map, Hf;
    try (intros x; destruct (Nat.eqb (c_id x) id); reflexivity);
    cbn; eexists; (split; [reflexivity |]);
    destruct (Nat.eqb (c_id r) id); auto.
Qed.

Lemma process_webhook_no_id ev st :
  truthy (event_call_id ev) = false ->
  calls (snd (process_webhook ev st)) = calls st
  /\ contacts (snd (process_webhook ev st)) = contacts st.
Proof.
  intros H. unfold process_webhook, bind, ret, insert_event. rewrite H. cbn. auto.
Qed.

(** C3 (as corrected): replaying an event that carries no gateway call id,
    or whose gateway call id matches a call, leaves the calls and contacts
    as one application does, up to [finished_at]; precisely, the replayed
    state is that of a single application made at the time of the replay. *)
Theorem webhook_replay_idempotent (cfg : config) (hdr : option string)
    (ev : webhook_event) (st : store)
    (Hknown : truthy (event_call_id ev) = false
              \/ find_by_dizparos_id (py_str (event_call_id ev)) (calls st) <> None) :
  let st1 := snd (dizparos_webhook cfg hdr ev st) in
  let st2 := snd (dizparos_webhook cfg hdr ev st1) in
  map erase_finished_at (calls st2) = map erase_finished_at (calls st1)
  /\ contacts st2 = contacts st1
  /\ calls st2 = calls (snd (dizparos_webhook cfg hdr ev (with_clock (clock st1) st))).
Proof.
  cbv zeta. unfold dizparos_webhook.
  destruct (verify_webhook cfg hdr) as [[code d] |]; [cbn; auto |].
  destruct (truthy (event_call_id ev)) eqn:Hid.
  2:{ destruct (process_webhook_no_id ev st Hid) as [Hc1 Hk1].
      destruct (process_webhook_no_id ev (snd (process_webhook ev st)) Hid) as [Hc2 Hk2].
      destruct (process_webhook_no_id ev
                  (with_clock (clock (snd (process_webhook ev st))) st) Hid) as [Hc3 _].
      rewrite Hc2, Hk2, Hc3, Hc1. auto. }
  destruct Hknown as [Hn | Hk]; [discriminate Hn |].
    destruct (find_by_dizparos_id (py_str (event_call_id ev)) (calls st)) as [r |] eqn:Hf;
      [| contradiction].
    destruct (process_webhook_found ev st r Hid Hf) as [_ [Hc1 Hk1]].
    set (st1 := snd (process_webhook ev st)) in *.
    destruct (find_transition_calls (py_str (event_call_id ev)) (spec_event_kind ev) (c_id r)
                ev (clock st) (calls st) r Hf) as [r' [Hf' [Eid Ect]]].
    rewrite <- Hc1 in Hf'.
    destruct (process_webhook_found ev st1 r' Hid Hf') as [_ [Hc2 Hk2]].
    destruct (process_webhook_found ev (with_clock (clock st1) st) r Hid Hf) as [_ [Hc3 _]].
    rewrite Hc2, Hk2, Hc3, Hc1, Hk1, Eid, Ect.
    cbn [with_clock clock calls].
    rewrite transition_calls_twice, transition_contacts_twice.
    split; [apply transition_calls_erase | auto].
Qed.

Lemma webhook_replay_idempotent_witness :
  (truthy (event_call_id finish_abc) = false
   \/ find_by_dizparos_id (py_str (event_call_id finish_abc)) (calls store_with_abc) <> None)
  /\ (let st1 := snd (dizparos_webhook cfg_ok None finish_abc store_with_abc) in
      let st2 := snd (dizparos_webhook cfg_ok None finish_abc st1) in
      map erase_finished_at (calls st2) = map erase_finished_at (calls st1)
      /\ contacts st2 = contacts st1
      /\ calls st2 = calls (snd (dizparos_webhook cfg_ok None finish_abc
                                   (with_clock (clock st1) store_with_abc)))).
Proof.
  assert (H : truthy (event_call_id finish_abc) = false
              \/ find_by_dizparos_id (py_str (event_call_id finish_abc))
                                     (calls store_with_abc) <> None)
    by (right; discriminate).
  split; [exact H |].
  exact (webhook_replay_idempotent cfg_ok None finish_abc store_with_abc H).
Defined.

(* ================================================================== *)
(** * Further properties of the code *)

(** ** Successful dispatch *)

Lemma in_update_contacts_patched (id : string) (p : contact_patch) ks k :
  In k (update_contacts id p ks) -> k_id k = id -> exists k0, k = apply_contact_patch p k0.
Proof.
  unfold update_contacts. rewrite in_map_iff. intros [x [Hx _]] Hid. subst k.
  destruct (String.eqb_spec (k_id x) id) as [E | E]; [eauto |]. contradiction.
Qed.

(** When the gateway answers with a usable id [v], the new call row keeps
    status created and stores [str(v)] as its gateway id, every row of the
    contact is calling with [attempts + 1] and the new row as last call,
    and no call event is written. *)
Theorem dispatch_success_recorded (cfg : config) (http : http_oracle)
    (cid : string) (c : contact) (st : store) (v : jval)
    (Hok : start_outcome cfg http (next_id st) (k_phone_e164 c) = inr v) :
  let st' := snd (dispatch_contact cfg http cid c st) in
  let attempts := match k_attempts c with Some a => a | None => 0 end in
  fst (dispatch_contact cfg http cid c st) = true
  /\ (exists pre, calls st'
        = (pre ++ [mkCall (next_id st) (Some cid) (Some (k_id c)) "created"
                          (Some (py_str v)) (Some (clock st)) None JNone JNone JNone])%list)
  /\ (forall k, In k (contacts st') -> k_id k = k_id c ->
        k_status k = "calling" /\ k_attempts k = Some (attempts + 1)
        /\ k_last_call_id k = Some (next_id st))
  /\ call_events st' = call_events st.
Proof.
  cbv zeta.
  unfold dispatch_contact, bind, ret, now_utc_iso, insert_call, update_contact,
    call_gateway, update_call, insert_event, add_log, set_calls, set_contacts.
  cbn -[update_calls update_contacts]. rewrite Hok.
  cbn -[update_calls update_contacts].
  split; [reflexivity |]. split; [| split].
  - unfold update_calls. rewrite map_app. cbn. rewrite Nat.eqb_refl.
    eexists. reflexivity.
  - intros k Hk Hid. destruct (in_update_contacts_patched _ _ _ _ Hk Hid) as [k0 ->].
    cbn. auto.
  - reflexivity.
Qed.

Lemma dispatch_success_recorded_witness :
  start_outcome cfg_ok (http_answers resp_abc) (next_id store_one_pending)
                (k_phone_e164 contact_k1) = inr (JStr "abc")
  /\ fst (dispatch_contact cfg_ok (http_answers resp_abc) "camp1" contact_k1
            store_one_pending) = true.
Proof.
  split; [reflexivity |].
  apply (dispatch_success_recorded cfg_ok (http_answers resp_abc) "camp1" contact_k1
           store_one_pending (JStr "abc")).
  reflexivity.
Defined.

(** ** Incomplete gateway configuration *)

Definition config_incomplete (cfg : config) : Prop :=
  DIZPAROS_TOKEN cfg = "" \/ TRANSFER_DESTINATION cfg = "" \/ DIZPAROS_ENDPOINT cfg = "".

Lemma start_outcome_incomplete cfg :
  config_incomplete cfg ->
  exists msg, forall http row phone, start_outcome cfg http row phone = inl msg.
Proof.
  unfold start_outcome, dizparos_start_call. intros H.
  destruct (String.eqb_spec (DIZPAROS_TOKEN cfg) "") as [_ | T]; [eauto |].
  destruct (String.eqb_spec (TRANSFER_DESTINATION cfg) "") as [_ | D]; [eauto |].
  destruct (String.eqb_spec (DIZPAROS_ENDPOINT cfg) "") as [_ | E]; [eauto |].
  exfalso. destruct H as [H | [H | H]]; contradiction.
Qed.

Section SameGateway.
Variables (cfg : config) (h1 h2 : http_oracle).
Hypothesis Hsame : forall row phone,
  start_outcome cfg h1 row phone = start_outcome cfg h2 row phone.

Lemma dispatch_contact_same_gateway cid c st :
  dispatch_contact cfg h1 cid c st = dispatch_contact cfg h2 cid c st.
Proof.
  unfold dispatch_contact, bind, call_gateway, now_utc_iso, insert_call, update_contact.
  cbn -[update_contacts]. rewrite Hsame. reflexivity.
Qed.

Lemma dispatch_loop_same_gateway cid cs : forall started errors st,
  dispatch_loop cfg h1 cid cs started errors st
  = dispatch_loop cfg h2 cid cs started errors st.
Proof.
  induction cs as [| c cs IH]; intros started errors st; [reflexivity |].
  cbn [dispatch_loop]. unfold bind.
  rewrite dispatch_contact_same_gateway.
  destruct (dispatch_contact cfg h2 cid c st) as [[|] st1]; apply IH.
Qed.

Lemma campaign_loop_same_gateway camps : forall st,
  campaign_loop cfg h1 camps st = campaign_loop cfg h2 camps st.
Proof.
  induction camps as [| g camps IH]; intros st; [reflexivity |].
  cbn [campaign_loop]. unfold bind at 1 3.
  assert (E : campaign_step cfg h1 g st = campaign_step cfg h2 g st).
  { unfold campaign_step, bind.
    destruct (slot_allocation g st) as [free st1].
    destruct (Z.leb free 0); [reflexivity |].
    destruct (select_pending (g_id g) free st1) as [cs st2].
    rewrite dispatch_loop_same_gateway. reflexivity. }
  rewrite E. destruct (campaign_step cfg h2 g st) as [e st1].
  unfold bind. rewrite IH. reflexivity.
Qed.

Lemma tick_same_gateway body st :
  tick cfg h1 body st = tick cfg h2 body st.
Proof.
  unfold tick, bind at 1 3, select_campaigns. cbn beta iota.
  destruct (running_campaigns body (campaigns st)); [reflexivity |].
  unfold bind. rewrite campaign_loop_same_gateway. reflexivity.
Qed.
End SameGateway.

Lemma dispatch_loop_no_start cfg http cid cs : forall started errors st,
  (forall row phone, exists msg, start_outcome cfg http row phone = inl msg) ->
  fst (fst (dispatch_loop cfg http cid cs started errors st)) = started.
Proof.
  induction cs as [| c cs IH]; intros started errors st H; [reflexivity |].
  cbn [dispatch_loop]. unfold bind at 1.
  assert (F : fst (dispatch_contact cfg http cid c st) = false).
  { unfold dispatch_contact, bind, call_gateway, now_utc_iso, insert_call, update_contact.
    cbn -[update_contacts].
    destruct (H (next_id st) (k_phone_e164 c)) as [msg ->]. reflexivity. }
  destruct (dispatch_contact cfg http cid c st) as [ok st1]. cbn in F. subst ok.
  apply IH. exact H.
Qed.

(** With the gateway token, the transfer destination or the endpoint empty
    (after stripping), a tick is the same whatever the gateway would
    answer, and every campaign entry reports 0 started calls. *)
Theorem tick_incomplete_config (cfg : config) (http : http_oracle)
    (body_campaign_id : option string) (st : store)
    (Hcfg : config_incomplete cfg) :
  (forall http', tick cfg http' body_campaign_id st = tick cfg http body_campaign_id st)
  /\ match fst (tick cfg http body_campaign_id st) with
     | TickResults _ rs => Forall (fun e => t_started e = 0) rs
     | TickMessage _ _ => True
     end.
Proof.
  destruct (start_outcome_incomplete cfg Hcfg) as [msg Hmsg].
  split.
  - intros http'. apply tick_same_gateway. intros row phone. rewrite !Hmsg. reflexivity.
  - assert (Hl : forall camps st0,
               Forall (fun e => t_started e = 0) (fst (campaign_loop cfg http camps st0))).
    { induction camps as [| g camps IH]; intros st0; [constructor |].
      cbn [campaign_loop]. unfold bind, ret.
      assert (Hg : t_started (fst (campaign_step cfg http g st0)) = 0).
      { unfold campaign_step, bind, ret.
        destruct (slot_allocation g st0) as [free st1].
        destruct (Z.leb free 0); [reflexivity |].
        destruct (select_pending (g_id g) free st1) as [cs st2].
        pose proof (dispatch_loop_no_start cfg http (g_id g) cs 0 0 st2
                      (fun row phone => ex_intro _ msg (Hmsg http row phone))) as D.
        destruct (dispatch_loop cfg http (g_id g) cs 0 0 st2) as [se st3].
        cbn in *. exact D. }
      destruct (campaign_step cfg http g st0) as [e st1]. cbn in Hg.
      specialize (IH st1).
      destruct (campaign_loop cfg http camps st1) as [es st2]. cbn in *.
      constructor; assumption. }
    unfold tick, bind at 1, select_campaigns. cbn beta iota.
    destruct (running_campaigns body_campaign_id (campaigns st)) as [| g gs]; [exact I |].
    unfold bind, ret. specialize (Hl (g :: gs) st).
    destruct (campaign_loop cfg http (g :: gs) st). exact Hl.
Qed.

Definition cfg_no_token := mkConfig "https://api.dizparos.com/v1/messaging/send" "  " "+55" "".

Lemma tick_incomplete_config_witness :
  config_incomplete cfg_no_token
  /\ match fst (tick cfg_no_token (http_answers resp_abc) None store_one_pending) with
     | TickResults _ rs => Forall (fun e => t_started e = 0) rs
     | TickMessage _ _ => True
     end.
Proof.
  assert (H : config_incomplete cfg_no_token) by (left; reflexivity).
  split; [exact H |].
  exact (proj2 (tick_incomplete_config cfg_no_token (http_answers resp_abc) None
                  store_one_pending H)).
Defined.

Example tick_no_token_fails_contact :
  fst (tick cfg_no_token (http_answers resp_abc) None store_one_pending)
  = TickResults true [mkEntry "camp1" 0 1 None (Some 1)].
Proof. vm_compute. reflexivity. Qed.

(** ** Webhook archival *)

(** An accepted event without any gateway call id changes no call and no
    contact, archives one debug event tagged [unknown_no_call_id:<desc>]
    with no call, and answers [ok] with a warning. *)
Theorem webhook_no_call_id (cfg : config) (hdr : option string)
    (ev : webhook_event) (st : store)
    (Hv : verify_webhook cfg hdr = None)
    (Hid : truthy (event_call_id ev) = false) :
  let (resp, st') := dizparos_webhook cfg hdr ev st in
  resp = WhOk None None (Some "call_id ausente, evento salvo como debug")
  /\ calls st' = calls st /\ contacts st' = contacts st
  /\ call_events st'
     = (call_events st
        ++ [mkCallEvent None ("unknown_no_call_id:" ++ event_desc ev) (PWebhook ev)])%list.
Proof.
  unfold dizparos_webhook. rewrite Hv.
  unfold process_webhook, bind, ret, insert_event. rewrite Hid. cbn. auto.
Qed.

Definition event_no_id :=
  mkEvent (JInt 2000) (JStr "Answered") JNone JNone JNone no_data.

Lemma webhook_no_call_id_witness :
  verify_webhook cfg_ok None = None
  /\ truthy (event_call_id event_no_id) = false
  /\ (let (resp, st') := dizparos_webhook cfg_ok None event_no_id store_with_abc in
      resp = WhOk None None (Some "call_id ausente, evento salvo como debug")
      /\ calls st' = calls store_with_abc /\ contacts st' = contacts store_with_abc
      /\ call_events st'
         = (call_events store_with_abc
            ++ [mkCallEvent None ("unknown_no_call_id:" ++ event_desc event_no_id)
                            (PWebhook event_no_id)])%list).
Proof.
  split; [reflexivity | split; [reflexivity |]].
  apply webhook_no_call_id; reflexivity.
Defined.

Lemma apply_transition_events ev desc r st :
  call_events (snd (apply_transition ev desc r st)) = call_events st.
Proof.
  unfold apply_transition, bind, ret, update_call, update_contact, now_utc_iso.
  repeat match goal with
         | |- context [if ?b then _ else _] => destruct b
         | |- context [match c_contact_id r with _ => _ end] => destruct (c_contact_id r)
         end; reflexivity.
Qed.

(** A rejected webhook writes no call event; an accepted one appends
    exactly one, carrying the raw payload and linked to the call matched
    by the gateway id (none when there is no id or no match). *)
Theorem webhook_archives_once (cfg : config) (hdr : option string)
    (ev : webhook_event) (st : store) :
  let st' := snd (dizparos_webhook cfg hdr ev st) in
  match verify_webhook cfg hdr with
  | Some _ => call_events st' = call_events st
  | None =>
      exists e, call_events st' = (call_events st ++ [e])%list
                /\ e_payload e = PWebhook ev
                /\ e_call_id e = (if truthy (event_call_id ev)
                                  then option_map c_id
                                         (find_by_dizparos_id (py_str (event_call_id ev))
                                                              (calls st))
                                  else None)
  end.
Proof.
  cbv zeta. unfold dizparos_webhook.
  destruct (verify_webhook cfg hdr) as [[code d] |]; [reflexivity |].
  unfold process_webhook, bind, ret, lookup_call, insert_event, insert_call, now_utc_iso.
  destruct (truthy (event_call_id ev)); cbn [negb].
  - destruct (find_by_dizparos_id (py_str (event_call_id ev)) (calls st)) as [r |] eqn:Hf.
    + set (st1 := mkStore _ _ _ _ _ _ _).
      pose proof (apply_transition_events ev (event_desc ev) r st1) as He.
      destruct (apply_transition ev (event_desc ev) r st1) as [u st2].
      cbn [snd] in *. rewrite He. cbn. eexists. split; [reflexivity | auto].
    + cbn. eexists. split; [reflexivity | auto].
  - cbn. eexists. split; [reflexivity | auto].
Qed.

(** ** Call keys under the webhook *)

(** Call ids are below the store's id counter. *)
Definition ids_below (st : store) : Prop :=
  Forall (fun c => (c_id c < next_id st)%nat) (calls st).

(** The columns a status update leaves alone. *)
Definition same_keys (c c' : call) : Prop :=
  c_id c' = c_id c /\ c_campaign_id c' = c_campaign_id c
  /\ c_contact_id c' = c_contact_id c /\ c_dizparos_call_id c' = c_dizparos_call_id c
  /\ c_created_at c' = c_created_at c.

Definition keeps_keys (p : call_patch) : Prop := forall c, same_keys c (apply_call_patch p c).

Lemma update_calls_same_keys id p cs :
  keeps_keys p -> Forall2 same_keys cs (update_calls id p cs).
Proof.
  intros Hp. induction cs as [| c cs IH]; [constructor |].
  cbn. constructor; [| exact IH].
  destruct (Nat.eqb (c_id c) id); [apply Hp | repeat split].
Qed.

Lemma Forall2_same_keys_refl cs : Forall2 same_keys cs cs.
Proof. induction cs; constructor; [repeat split | assumption]. Qed.

Lemma Forall_update_calls_id (P : nat -> Prop) id p cs :
  Forall (fun c => P (c_id c)) cs -> Forall (fun c => P (c_id c)) (update_calls id p cs).
Proof.
  intros H. unfold update_calls. apply Forall_map.
  eapply Forall_impl; [| exact H]. intros c Hc. cbn beta.
  destruct (Nat.eqb (c_id c) id); [rewrite apply_call_patch_id |]; exact Hc.
Qed.

Lemma apply_transition_keys ev desc r st :
  ids_below st ->
  ids_below (snd (apply_transition ev desc r st))
  /\ Forall2 same_keys (calls st) (calls (snd (apply_transition ev desc r st))).
Proof.
  unfold ids_below, apply_transition, bind, ret, update_call, update_contact, now_utc_iso.
  intros Hb.
  assert (Hu : forall p, keeps_keys p ->
            Forall (fun c => (c_id c < next_id st)%nat) (update_calls (c_id r) p (calls st))
            /\ Forall2 same_keys (calls st) (update_calls (c_id r) p (calls st))).
  { intros p Hp. split; [apply (Forall_update_calls_id (fun i => (i < next_id st)%nat)); exact Hb
                        | apply update_calls_same_keys; exact Hp]. }
  assert (Hst : forall s, keeps_keys (SetCallStatus s)) by (intros s' c; repeat split).
  assert (Hfin : forall d co re t, keeps_keys (MarkFinished d co re t))
    by (intros d co re t c; repeat split).
  destruct (jval_eq_int (ev_type ev) 2000 || py_in "answered" desc)%bool;
    [cbn -[update_calls]; apply Hu, Hst |].
  destruct (jval_eq_int (ev_type ev) 2001 || py_in "transferred" desc)%bool;
    [cbn -[update_calls]; apply Hu, Hst |].
  destruct (jval_eq_int (ev_type ev) 2002 || py_in "finished" desc
            || py_in "completed" desc)%bool;
    [| cbn; split; [exact Hb | apply Forall2_same_keys_refl]].
  destruct (c_contact_id r) as [k |]; [destruct (String.eqb k "") |];
    cbn -[update_calls update_contacts]; apply Hu, Hfin.
Qed.

(** A webhook never changes the id, campaign, contact, gateway id or
    creation time of an existing call row, adds at most one row, and keeps
    every call id below the id counter. *)
Theorem webhook_keeps_call_keys (cfg : config) (hdr : option string)
    (ev : webhook_event) (st : store) (Hb : ids_below st) :
  let st' := snd (dizparos_webhook cfg hdr ev st) in
  ids_below st'
  /\ exists pre added, calls st' = (pre ++ added)%list
                       /\ Forall2 same_keys (calls st) pre
                       /\ (List.length added <= 1)%nat.
Proof.
  cbv zeta. unfold dizparos_webhook.
  destruct (verify_webhook cfg hdr) as [[code d] |].
  { split; [exact Hb |]. exists (calls st), []. rewrite app_nil_r.
    split; [reflexivity | split; [apply Forall2_same_keys_refl | cbn; lia]]. }
  unfold process_webhook, bind, ret, lookup_call, insert_event, insert_call, now_utc_iso.
  destruct (truthy (event_call_id ev)); cbn [negb].
  - destruct (find_by_dizparos_id (py_str (event_call_id ev)) (calls st)) as [r |].
    + set (st1 := mkStore _ _ _ _ _ _ _).
      assert (Hb1 : ids_below st1) by exact Hb.
      destruct (apply_transition_keys ev (event_desc ev) r st1 Hb1) as [Hb2 Hk].
      destruct (apply_transition ev (event_desc ev) r st1) as [u st2].
      cbn [snd] in *. split; [exact Hb2 |].
      exists (calls st2), []. rewrite app_nil_r.
      split; [reflexivity | split; [exact Hk | cbn; lia]].
    + cbn. split.
      * unfold ids_below in *. cbn. apply Forall_app. split.
        -- eapply Forall_impl; [| exact Hb]. intros c Hc. cbn beta in *. lia.
        -- constructor; [cbn; lia | constructor].
      * exists (calls st), [mkCall (next_id st) None None "created"
                                   (Some (py_str (event_call_id ev))) (Some (clock st))
                                   None JNone JNone JNone].
        split; [reflexivity | split; [apply Forall2_same_keys_refl | cbn; lia]].
  - cbn. split; [exact Hb |]. exists (calls st), []. rewrite app_nil_r.
    split; [reflexivity | split; [apply Forall2_same_keys_refl | cbn; lia]].
Qed.

Lemma webhook_keeps_call_keys_witness :
  ids_below store_with_abc
  /\ ids_below (snd (dizparos_webhook cfg_ok None finish_abc store_with_abc)).
Proof.
  assert (H : ids_below store_with_abc) by (repeat constructor).
  split; [exact H |].
  exact (proj1 (webhook_keeps_call_keys cfg_ok None finish_abc store_with_abc H)).
Defined.

(** ** Call rows under the tick *)

Definition added_calls (P : call -> Prop) (st st' : store) : Prop :=
  exists added, calls st' = (calls st ++ added)%list /\ Forall P added.

Lemma added_calls_trans (P : call -> Prop) st1 st2 st3 :
  added_calls P st1 st2 -> added_calls P st2 st3 -> added_calls P st1 st3.
Proof.
  intros [a1 [E1 F1]] [a2 [E2 F2]].
  exists (a1 ++ a2)%list. rewrite E2, E1, app_assoc. split; [reflexivity |].
  apply Forall_app. split; [exact F1 | exact F2].
Qed.

Lemma added_calls_refl P st : added_calls P st st.
Proof. exists []. rewrite app_nil_r. auto. Qed.

Lemma update_calls_fresh id p cs :
  Forall (fun c => (c_id c < id)%nat) cs -> update_calls id p cs = cs.
Proof.
  intros H. unfold update_calls. rewrite <- (map_id cs) at 2. apply map_ext_in.
  intros c Hc. rewrite Forall_forall in H. specialize (H c Hc).
  destruct (Nat.eqb_spec (c_id c) id); [lia | reflexivity].
Qed.

Definition tick_row (cid : string) (r : call) : Prop :=
  c_campaign_id r = Some cid /\ (c_status r = "created" \/ c_status r = "failed").

Lemma dispatch_contact_appends cfg http cid c st :
  ids_below st ->
  ids_below (snd (dispatch_contact cfg http cid c st))
  /\ added_calls (tick_row cid) st (snd (dispatch_contact cfg http cid c st)).
Proof.
  intros Hb. unfold ids_below in *.
  unfold dispatch_contact, bind, ret, now_utc_iso, insert_call, update_contact,
    call_gateway, update_call, insert_event, add_log, set_calls, set_contacts.
  cbn -[update_calls update_contacts].
  set (row := mkCall (next_id st) (Some cid) (Some (k_id c)) "created" None
                     (Some (clock st)) None JNone JNone JNone).
  assert (Hb' : Forall (fun c0 => (c_id c0 < S (next_id st))%nat) (calls st ++ [row])).
  { apply Forall_app. split; [eapply Forall_impl; [| exact Hb]; intros; cbn beta in *; lia
                             | constructor; [cbn; lia | constructor]]. }
  assert (Hfresh : forall p, update_calls (next_id st) p (calls st ++ [row])
                             = (calls st ++ [apply_call_patch p row])%list).
  { intros p. unfold update_calls at 1. rewrite map_app. unfold row. cbn [map c_id].
    rewrite Nat.eqb_refl. f_equal.
    exact (update_calls_fresh (next_id st) p (calls st) Hb). }
  destruct (start_outcome cfg http (next_id st) (k_phone_e164 c));
    cbn -[update_calls update_contacts]; (split;
    [apply (Forall_update_calls_id (fun i => (i < S (next_id st))%nat)); exact Hb'
    | rewrite Hfresh; eexists; split; [reflexivity |];
      constructor; [| constructor]; split; cbn; auto]).
Qed.

Lemma dispatch_loop_appends cfg http cid cs : forall started errors st,
  ids_below st ->
  ids_below (snd (dispatch_loop cfg http cid cs started errors st))
  /\ added_calls (tick_row cid) st (snd (dispatch_loop cfg http cid cs started errors st)).
Proof.
  induction cs as [| c cs IH]; intros started errors st Hb.
  - split; [exact Hb | apply added_calls_refl].
  - cbn [dispatch_loop]. unfold bind.
    destruct (dispatch_contact_appends cfg http cid c st Hb) as [Hb1 A1].
    destruct (dispatch_contact cfg http cid c st) as [ok st1]. cbn [snd] in *.
    assert (H : forall s e, ids_below (snd (dispatch_loop cfg http cid cs s e st1))
                            /\ added_calls (tick_row cid) st
                                 (snd (dispatch_loop cfg http cid cs s e st1))).
    { intros s e. destruct (IH s e st1 Hb1) as [Hb2 A2].
      split; [exact Hb2 | eapply added_calls_trans; eauto]. }
    destruct ok; apply H.
Qed.

Definition tick_row_in (camps : list campaign) (r : call) : Prop :=
  (exists g, In g camps /\ c_campaign_id r = Some (g_id g))
  /\ (c_status r = "created" \/ c_status r = "failed").

Lemma campaign_step_appends cfg http g st :
  ids_below st ->
  ids_below (snd (campaign_step cfg http g st))
  /\ added_calls (tick_row (g_id g)) st (snd (campaign_step cfg http g st)).
Proof.
  intros Hb. unfold campaign_step, bind, ret.
  destruct (slot_allocation g st) as [free st1] eqn:Ea.
  assert (E1 : st1 = st) by (unfold slot_allocation, bind, ret in Ea;
                             cbn in Ea; inversion Ea; reflexivity).
  subst st1.
  destruct (Z.leb free 0); [split; [exact Hb | apply added_calls_refl] |].
  cbn [select_pending].
  pose proof (dispatch_loop_appends cfg http (g_id g)
                (pending_contacts (g_id g) free (contacts st)) 0 0 st Hb) as D.
  destruct (dispatch_loop _ _ _ _ _ _ _) as [se st2]. exact D.
Qed.

Lemma campaign_loop_appends cfg http camps : forall st,
  ids_below st ->
  ids_below (snd (campaign_loop cfg http camps st))
  /\ added_calls (tick_row_in camps) st (snd (campaign_loop cfg http camps st)).
Proof.
  induction camps as [| g camps IH]; intros st Hb.
  - split; [exact Hb | apply added_calls_refl].
  - cbn [campaign_loop]. unfold bind, ret.
    pose proof (campaign_step_appends cfg http g st Hb) as Hs.
    destruct (campaign_step cfg http g st) as [e st1]. cbn [snd] in Hs.
    destruct Hs as [Hb1 A1].
    destruct (IH st1 Hb1) as [Hb2 A2].
    destruct (campaign_loop cfg http camps st1) as [es st2]. cbn [snd] in *.
    split; [exact Hb2 |].
    destruct A1 as [a1 [E1 F1]], A2 as [a2 [E2 F2]].
    exists (a1 ++ a2)%list. rewrite E2, E1, app_assoc. split; [reflexivity |].
    apply Forall_app. split.
    + eapply Forall_impl; [| exact F1]. intros r [Hc Hs].
      split; [exists g; split; [left; reflexivity | exact Hc] | exact Hs].
    + eapply Forall_impl; [| exact F2]. intros r [[g' [Hg' Hc]] Hs].
      split; [exists g'; split; [right; exact Hg' | exact Hc] | exact Hs].
Qed.

(** Given call ids below the id counter, a tick leaves every existing call
    row as it was and only appends rows, each belonging to a running
    campaign the tick selected and in status created or failed; ids stay
    below the counter. *)
Theorem tick_appends_calls (cfg : config) (http : http_oracle)
    (body_campaign_id : option string) (st : store) (Hb : ids_below st) :
  let st' := snd (tick cfg http body_campaign_id st) in
  ids_below st'
  /\ exists added, calls st' = (calls st ++ added)%list
     /\ Forall (tick_row_in (running_campaigns body_campaign_id (campaigns st))) added.
Proof.
  cbv zeta. unfold tick, bind, ret, select_campaigns. cbn beta iota.
  pose proof (campaign_loop_appends cfg http
    (running_campaigns body_campaign_id (campaigns st)) st Hb) as HL.
  destruct (running_campaigns body_campaign_id (campaigns st)) as [| g gs].
  - cbn. split; [exact Hb | exists []; rewrite app_nil_r; auto].
  - destruct (campaign_loop cfg http (g :: gs) st) as [rs st']. exact HL.
Qed.

Lemma tick_appends_calls_witness :
  ids_below store_one_pending
  /\ ids_below (snd (tick cfg_ok (http_answers resp_abc) None store_one_pending)).
Proof.
  assert (H : ids_below store_one_pending) by constructor.
  split; [exact H |].
  exact (proj1 (tick_appends_calls cfg_ok (http_answers resp_abc) None store_one_pending H)).
Defined.

(** ** Contact rows under the tick *)

(** [id] is the id of a contact of [ks0] that is pending in one of [camps]. *)
Definition pending_in (camps : list campaign) (ks0 : list contact) (id : string) : Prop :=
  exists p g, In p ks0 /\ In g camps /\ k_campaign_id p = g_id g
              /\ k_status p = "pending" /\ k_id p = id.

(** A contact row [k] of [ks0] has become [k']: either it is untouched, or
    its id is that of a pending contact of [camps] and only its status,
    attempts and last call changed, the status to calling or failed. *)
Definition contact_touch (camps : list campaign) (ks0 : list contact) (k k' : contact)
  : Prop :=
  k' = k
  \/ (pending_in camps ks0 (k_id k)
      /\ k_id k' = k_id k /\ k_campaign_id k' = k_campaign_id k
      /\ k_phone_e164 k' = k_phone_e164 k
      /\ (k_status k' = "calling" \/ k_status k' = "failed")).

Definition contacts_touched (camps : list campaign) (ks0 : list contact) (st : store)
  : Prop :=
  Forall2 (contact_touch camps ks0) ks0 (contacts st).

Lemma contact_touch_pending camps ks0 l ks c :
  Forall2 (contact_touch camps ks0) l ks -> In c ks -> k_status c = "pending" -> In c l.
Proof.
  induction 1 as [| k k' l ks Hk _ IH]; intros Hin Hs; [destruct Hin |].
  destruct Hin as [<- | Hin]; [| right; exact (IH Hin Hs)].
  destruct Hk as [-> | (_ & _ & _ & _ & [Hc | Hc])];
    [left; reflexivity | rewrite Hc in Hs; discriminate | rewrite Hc in Hs; discriminate].
Qed.

Lemma contact_touch_update camps ks0 x p : forall l ks,
  (forall k, k_status (apply_contact_patch p k) = "calling"
             \/ k_status (apply_contact_patch p k) = "failed") ->
  pending_in camps ks0 x ->
  Forall2 (contact_touch camps ks0) l ks ->
  Forall2 (contact_touch camps ks0) l (update_contacts x p ks).
Proof.
  intros l ks Hp Hx H. unfold update_contacts.
  induction H as [| k k' l ks Hk _ IH]; cbn [map]; constructor; [| exact IH].
  destruct (String.eqb_spec (k_id k') x) as [Ex |]; [| exact Hk].
  assert (Hkeys : k_id k' = k_id k /\ k_campaign_id k' = k_campaign_id k
                  /\ k_phone_e164 k' = k_phone_e164 k)
    by (destruct Hk as [-> | (_ & ? & ? & ? & _)]; auto).
  destruct Hkeys as (E1 & E2 & E3).
  right. split; [rewrite <- E1, Ex; exact Hx |].
  destruct p; cbn [k_id k_campaign_id k_phone_e164]; auto.
Qed.

Lemma dispatch_contact_touched cfg http cid c camps ks0 st :
  pending_in camps ks0 (k_id c) -> contacts_touched camps ks0 st ->
  contacts_touched camps ks0 (snd (dispatch_contact cfg http cid c st)).
Proof.
  intros Hx H. unfold contacts_touched in *.
  unfold dispatch_contact, bind, ret, now_utc_iso, insert_call, update_contact,
    call_gateway, update_call, insert_event, add_log, set_calls, set_contacts.
  cbn -[update_calls update_contacts].
  destruct (start_outcome cfg http (next_id st) (k_phone_e164 c));
    cbn -[update_calls update_contacts];
    repeat (apply contact_touch_update; [intros k; cbn; auto | exact Hx |]); exact H.
Qed.

Lemma dispatch_loop_touched cfg http cid camps ks0 cs : forall started errors st,
  Forall (fun c => pending_in camps ks0 (k_id c)) cs ->
  contacts_touched camps ks0 st ->
  contacts_touched camps ks0 (snd (dispatch_loop cfg http cid cs started errors st)).
Proof.
  induction cs as [| c cs IH]; intros started errors st Hcs H; [exact H |].
  inversion Hcs as [| c' cs' Hc Hcs' ]; subst.
  cbn [dispatch_loop]. unfold bind.
  pose proof (dispatch_contact_touched cfg http cid c camps ks0 st Hc H) as H1.
  destruct (dispatch_contact cfg http cid c st) as [ok st1]. cbn [snd] in H1.
  destruct ok; apply IH; assumption.
Qed.

Lemma campaign_loop_touched cfg http camps ks0 : forall gs st,
  incl gs camps ->
  contacts_touched camps ks0 st ->
  contacts_touched camps ks0 (snd (campaign_loop cfg http gs st)).
Proof.
  induction gs as [| g gs IH]; intros st Hin H; [exact H |].
  cbn [campaign_loop]. unfold bind, ret.
  assert (Hs : contacts_touched camps ks0 (snd (campaign_step cfg http g st))).
  { unfold campaign_step, bind, ret.
    destruct (slot_allocation g st) as [free st1] eqn:Ea.
    assert (E1 : st1 = st) by (unfold slot_allocation, bind, ret in Ea;
                               cbn in Ea; inversion Ea; reflexivity).
    subst st1.
    destruct (Z.leb free 0); [exact H |].
    cbn [select_pending].
    assert (Hcs : Forall (fun c => pending_in camps ks0 (k_id c))
                         (pending_contacts (g_id g) free (contacts st))).
    { apply Forall_forall. intros c Hc. unfold pending_contacts in Hc.
      set (l := filter _ (contacts st)) in Hc.
      assert (Hl : In c l)
        by (rewrite <- (firstn_skipn (Z.to_nat free) l); apply in_or_app; left; exact Hc).
      apply filter_In in Hl as [Hk Hf]. apply andb_true_iff in Hf as [Hg Hp].
      apply String.eqb_eq in Hg, Hp.
      exists c, g. repeat split; auto.
      - exact (contact_touch_pending camps ks0 ks0 (contacts st) c H Hk Hp).
      - exact (proj1 (incl_cons_inv Hin)). }
    pose proof (dispatch_loop_touched cfg http (g_id g) camps ks0
                  (pending_contacts (g_id g) free (contacts st)) 0 0 st Hcs H) as D.
    destruct (dispatch_loop _ _ _ _ _ _ _) as [se st2]. exact D. }
  destruct (campaign_step cfg http g st) as [e st1]. cbn [snd] in Hs.
  pose proof (IH st1 (proj2 (incl_cons_inv Hin)) Hs) as H2.
  destruct (campaign_loop cfg http gs st1) as [es st2]. exact H2.
Qed.

(** A tick keeps the contacts table row for row: a row changes only when its
    id is that of a contact that was pending in a running campaign the tick
    selected, and then it keeps its id, campaign and phone and ends in
    status calling or failed. *)
Theorem tick_contacts_touched (cfg : config) (http : http_oracle)
    (body_campaign_id : option string) (st : store) :
  Forall2 (contact_touch (running_campaigns body_campaign_id (campaigns st)) (contacts st))
          (contacts st) (contacts (snd (tick cfg http body_campaign_id st))).
Proof.
  assert (H0 : contacts_touched (running_campaigns body_campaign_id (campaigns st))
                                (contacts st) st).
  { unfold contacts_touched.
    assert (G : forall l, Forall2 (contact_touch (running_campaigns body_campaign_id
                                                   (campaigns st)) (contacts st)) l l)
      by (induction l; constructor; [left; reflexivity | assumption]).
    apply G. }
  unfold tick, bind, ret, select_campaigns. cbn beta iota.
  pose proof (campaign_loop_touched cfg http
    (running_campaigns body_campaign_id (campaigns st)) (contacts st)
    (running_campaigns body_campaign_id (campaigns st)) st (incl_refl _) H0) as HL.
  destruct (running_campaigns body_campaign_id (campaigns st)) as [| g gs]; [exact H0 |].
  destruct (campaign_loop cfg http (g :: gs) st) as [rs st']. exact HL.
Qed.

(** ** From dispatch to webhook *)

Lemma dispatch_success_calls cfg http cid c st v :
  ids_below st ->
  start_outcome cfg http (next_id st) (k_phone_e164 c) = inr v ->
  calls (snd (dispatch_contact cfg http cid c st))
  = (calls st ++ [mkCall (next_id st) (Some cid) (Some (k_id c)) "created"
                         (Some (py_str v)) (Some (clock st)) None JNone JNone JNone])%list.
Proof.
  intros Hb Hok.
  unfold dispatch_contact, bind, ret, now_utc_iso, insert_call, update_contact,
    call_gateway, update_call, insert_event, add_log, set_calls, set_contacts.
  cbn -[update_calls update_contacts]. rewrite Hok. cbn -[update_calls update_contacts].
  unfold update_calls at 1. rewrite map_app. cbn [map c_id]. rewrite Nat.eqb_refl.
  f_equal. exact (update_calls_fresh (next_id st) _ (calls st) Hb).
Qed.

Lemma find_by_dizparos_id_last s cs r :
  find_by_dizparos_id s cs = None -> c_dizparos_call_id r = Some s ->
  find_by_dizparos_id s (cs ++ [r])%list = Some r.
Proof.
  unfold find_by_dizparos_id. intros Hn Hr.
  induction cs as [| a cs IH]; cbn in *.
  - rewrite Hr, String.eqb_refl. reflexivity.
  - destruct (match c_dizparos_call_id a with
              | Some x => String.eqb x s | None => false end);
      [discriminate | exact (IH Hn)].
Qed.

(** After a contact is dispatched and the gateway answered with id [v], an
    accepted webhook whose call id prints as [str(v)] (an integer id and its
    decimal string alike) is matched to the new call row: the handler
    reports that row, applies its transition to it, and a finish event
    marks the dispatched contact done; this needs no earlier row with the
    same gateway id. *)
Theorem dispatch_then_webhook (cfg : config) (http : http_oracle) (cid : string)
    (c : contact) (st : store) (v : jval) (hdr : option string) (ev : webhook_event)
    (Hb : ids_below st)
    (Hok : start_outcome cfg http (next_id st) (k_phone_e164 c) = inr v)
    (Hnew : find_by_dizparos_id (py_str v) (calls st) = None)
    (Hv : verify_webhook cfg hdr = None)
    (Hid : truthy (event_call_id ev) = true)
    (Hs : py_str (event_call_id ev) = py_str v) :
  let st1 := snd (dispatch_contact cfg http cid c st) in
  let st2 := snd (dizparos_webhook cfg hdr ev st1) in
  fst (dizparos_webhook cfg hdr ev st1) = WhOk (Some (next_id st)) (Some (py_str v)) None
  /\ calls st2 = transition_calls (spec_event_kind ev) (next_id st) ev (clock st1) (calls st1)
  /\ contacts st2 = transition_contacts (spec_event_kind ev) (Some (k_id c)) (contacts st1).
Proof.
  cbv zeta.
  pose proof (dispatch_success_calls cfg http cid c st v Hb Hok) as Hc.
  set (st1 := snd (dispatch_contact cfg http cid c st)) in *.
  assert (Hf : find_by_dizparos_id (py_str (event_call_id ev)) (calls st1)
               = Some (mkCall (next_id st) (Some cid) (Some (k_id c)) "created"
                              (Some (py_str v)) (Some (clock st)) None JNone JNone JNone)).
  { rewrite Hc, Hs. apply find_by_dizparos_id_last; [exact Hnew | reflexivity]. }
  pose proof (process_webhook_found ev st1 _ Hid Hf) as (H1 & H2 & H3).
  unfold dizparos_webhook. rewrite Hv. rewrite Hs in H1. exact (conj H1 (conj H2 H3)).
Qed.

Definition resp_123 := mkResp (JInt 123) JNone RDataMissing.

(** A finish event naming gateway call "123" as a string. *)
Definition finish_123 :=
  mkEvent (JInt 2002) JNone JNone JNone JNone (mkData (JStr "123") (JInt 42) JNone JNone).

Lemma dispatch_then_webhook_witness :
  ids_below store_one_pending
  /\ start_outcome cfg_ok (http_answers resp_123) (next_id store_one_pending)
                   (k_phone_e164 contact_k1) = inr (JInt 123)
  /\ find_by_dizparos_id (py_str (JInt 123)) (calls store_one_pending) = None
  /\ verify_webhook cfg_ok None = None
  /\ truthy (event_call_id finish_123) = true
  /\ py_str (event_call_id finish_123) = py_str (JInt 123)
  /\ fst (dizparos_webhook cfg_ok None finish_123
            (snd (dispatch_contact cfg_ok (http_answers resp_123) "camp1" contact_k1
                                   store_one_pending)))
     = WhOk (Some 0%nat) (Some "123") None.
Proof.
  assert (Hb : ids_below store_one_pending) by constructor.
  split; [exact Hb |]. split; [reflexivity |]. split; [reflexivity |].
  split; [reflexivity |]. split; [reflexivity |]. split; [reflexivity |].
  refine (proj1 (dispatch_then_webhook cfg_ok (http_answers resp_123) "camp1" contact_k1
                   store_one_pending (JInt 123) None finish_123 Hb _ _ _ _ _));
    reflexivity.
Defined.

(** ** Reported counters and the rows written *)

Definition sum_started (rs : list tick_entry) : Z := fold_right (fun e a => t_started e + a) 0 rs.
Definition sum_errors (rs : list tick_entry) : Z := fold_right (fun e a => t_errors e + a) 0 rs.

Lemma dispatch_contact_sizes cfg http cid c st :
  let (ok, st') := dispatch_contact cfg http cid c st in
  List.length (calls st') = S (List.length (calls st))
  /\ List.length (call_events st')
     = (List.length (call_events st) + if ok then 0 else 1)%nat.
Proof.
  unfold dispatch_contact, bind, ret, now_utc_iso, insert_call, update_contact,
    call_gateway, update_call, insert_event, add_log, set_calls, set_contacts.
  cbn -[update_calls update_contacts].
  destruct (start_outcome cfg http (next_id st) (k_phone_e164 c));
    cbn -[update_calls update_contacts]; unfold update_calls;
    rewrite ?length_map, ?length_app; cbn; lia.
Qed.

Lemma dispatch_loop_sizes cfg http cid cs : forall started errors st,
  let (se, st') := dispatch_loop cfg http cid cs started errors st in
  Z.of_nat (List.length (calls st'))
  = Z.of_nat (List.length (calls st)) + (fst se - started) + (snd se - errors)
  /\ Z.of_nat (List.length (call_events st'))
     = Z.of_nat (List.length (call_events st)) + (snd se - errors).
Proof.
  induction cs as [| c cs IH]; intros started errors st;
    cbn [dispatch_loop]; unfold bind, ret; [cbn; lia |].
  pose proof (dispatch_contact_sizes cfg http cid c st) as H1.
  destruct (dispatch_contact cfg http cid c st) as [ok st1]. destruct H1 as [Hc He].
  destruct ok; [specialize (IH (started + 1) errors st1) | specialize (IH started (errors + 1) st1)];
    destruct (dispatch_loop cfg http cid cs _ _ st1) as [se st2]; cbn [fst snd] in *; lia.
Qed.

Lemma campaign_step_sizes cfg http g st :
  let (en, st') := campaign_step cfg http g st in
  Z.of_nat (List.length (calls st'))
  = Z.of_nat (List.length (calls st)) + t_started en + t_errors en
  /\ Z.of_nat (List.length (call_events st'))
     = Z.of_nat (List.length (call_events st)) + t_errors en.
Proof.
  unfold campaign_step, bind, ret.
  destruct (slot_allocation g st) as [free st1] eqn:Ea.
  assert (E1 : st1 = st) by (unfold slot_allocation, bind, ret in Ea;
                             cbn in Ea; inversion Ea; reflexivity).
  subst st1.
  destruct (Z.leb free 0); [cbn; lia |].
  cbn [select_pending].
  pose proof (dispatch_loop_sizes cfg http (g_id g)
                (pending_contacts (g_id g) free (contacts st)) 0 0 st) as D.
  destruct (dispatch_loop _ _ _ _ _ _ _) as [se st2]. cbn [t_started t_errors]. lia.
Qed.

Lemma campaign_loop_sizes cfg http gs : forall st,
  let (rs, st') := campaign_loop cfg http gs st in
  Z.of_nat (List.length (calls st'))
  = Z.of_nat (List.length (calls st)) + sum_started rs + sum_errors rs
  /\ Z.of_nat (List.length (call_events st'))
     = Z.of_nat (List.length (call_events st)) + sum_errors rs.
Proof.
  induction gs as [| g gs IH]; intros st; cbn [campaign_loop]; unfold bind, ret; [cbn; lia |].
  pose proof (campaign_step_sizes cfg http g st) as H1.
  destruct (campaign_step cfg http g st) as [en st1].
  specialize (IH st1). destruct (campaign_loop cfg http gs st1) as [rs st2].
  cbn [sum_started sum_errors fold_right] in *. fold (sum_started rs) (sum_errors rs). lia.
Qed.

(** The counters a tick reports account for its writes: each started or
    failed dispatch inserted exactly one call row and each failure exactly
    one call event; when no campaign runs, nothing is written. *)
Theorem tick_counters_match_writes (cfg : config) (http : http_oracle)
    (body_campaign_id : option string) (st : store) :
  let (resp, st') := tick cfg http body_campaign_id st in
  match resp with
  | TickMessage _ _ => st' = st
  | TickResults _ rs =>
      Z.of_nat (List.length (calls st'))
      = Z.of_nat (List.length (calls st)) + sum_started rs + sum_errors rs
      /\ Z.of_nat (List.length (call_events st'))
         = Z.of_nat (List.length (call_events st)) + sum_errors rs
  end.
Proof.
  unfold tick, bind, ret, select_campaigns. cbn beta iota.
  pose proof (campaign_loop_sizes cfg http
                (running_campaigns body_campaign_id (campaigns st)) st) as HL.
  destruct (running_campaigns body_campaign_id (campaigns st)) as [| g gs]; [reflexivity |].
  destruct (campaign_loop cfg http (g :: gs) st) as [rs st']. exact HL.
Qed.

(** ** Shape of the tick response *)

(** The entry recorded for campaign [g] when the allocator grants it [free]
    slots: [{started: 0, errors: 0, reason: "sem slots"}] without slots,
    otherwise [{started, errors, free_slots}] with [started + errors] at
    most [free_slots]. *)
Definition entry_for (g : campaign) (free : Z) (e : tick_entry) : Prop :=
  t_campaign_id e = g_id g
  /\ ((free <= 0 /\ e = mkEntry (g_id g) 0 0 (Some "sem slots") None)
      \/ (0 < free /\ t_reason e = None /\ t_free_slots e = Some free
          /\ 0 <= t_started e /\ 0 <= t_errors e /\ t_started e + t_errors e <= free)).

Lemma dispatch_loop_counters cfg http cid cs : forall started errors st,
  let se := fst (dispatch_loop cfg http cid cs started errors st) in
  started <= fst se /\ errors <= snd se
  /\ fst se + snd se = started + errors + Z.of_nat (List.length cs).
Proof.
  induction cs as [| c cs IH]; intros started errors st; cbv zeta.
  - cbn. lia.
  - cbn [dispatch_loop]. unfold bind.
    destruct (dispatch_contact cfg http cid c st) as [ok st1].
    cbn [List.length].
    destruct ok; [pose proof (IH (started + 1) errors st1) as H
                 | pose proof (IH started (errors + 1) st1) as H];
      cbv zeta in H; lia.
Qed.

Lemma slot_allocation_fst g st :
  fst (slot_allocation g st)
  = Z.max (effective_concurrency g - count_in_flight (g_id g) (calls st)) 0.
Proof. reflexivity. Qed.

Lemma campaign_step_entry cfg http g st :
  entry_for g (fst (slot_allocation g st)) (fst (campaign_step cfg http g st)).
Proof.
  rewrite slot_allocation_fst.
  unfold campaign_step, slot_allocation, count_calls_in_progress, select_pending, bind, ret.
  cbn beta iota.
  set (free := Z.max (effective_concurrency g - count_in_flight (g_id g) (calls st)) 0).
  destruct (Z.leb_spec free 0) as [Hf | Hf].
  - cbn. split; [reflexivity | left; auto].
  - set (cs := pending_contacts (g_id g) free (contacts st)).
    pose proof (pending_contacts_length (g_id g) free (contacts st) Hf) as Hl.
    pose proof (dispatch_loop_counters cfg http (g_id g) cs 0 0 st) as Hd.
    cbv zeta in Hd.
    destruct (dispatch_loop cfg http (g_id g) cs 0 0 st) as [[s e] st'].
    cbn in *. split; [reflexivity | right]. unfold cs in *. repeat split; cbn [t_started t_errors t_reason t_free_slots]; auto; lia.
Qed.

(** A step for one campaign leaves the in-flight count of every other
    campaign as it was. *)
Lemma campaign_step_count_other cfg http g st x :
  ids_below st -> g_id g <> x ->
  count_in_flight x (calls (snd (campaign_step cfg http g st)))
  = count_in_flight x (calls st).
Proof.
  intros Hb Hx.
  destruct (campaign_step_appends cfg http g st Hb) as [_ [added [E F]]].
  rewrite E, count_in_flight_app.
  enough (count_in_flight x added = 0) by lia.
  clear E. induction F as [| r added [Hr _] _ IH]; [reflexivity |].
  rewrite count_in_flight_cons, IH. unfold counted. rewrite Hr.
  destruct (String.eqb_spec (g_id g) x); [contradiction | reflexivity].
Qed.

Lemma campaign_loop_entries cfg http gs : forall st st0,
  NoDup (map g_id gs) -> ids_below st ->
  (forall g, In g gs -> count_in_flight (g_id g) (calls st)
                        = count_in_flight (g_id g) (calls st0)) ->
  Forall2 (fun g e => entry_for g (fst (slot_allocation g st0)) e)
          gs (fst (campaign_loop cfg http gs st)).
Proof.
  induction gs as [| g gs IH]; intros st st0 Hnd Hb Hc; [constructor |].
  inversion Hnd as [| x xs Hnin Hnd']; subst.
  cbn [campaign_loop]. unfold bind, ret.
  pose proof (campaign_step_entry cfg http g st) as He.
  pose proof (campaign_step_appends cfg http g st Hb) as [Hb1 _].
  assert (Hc1 : forall g', In g' gs -> count_in_flight (g_id g') (calls (snd (campaign_step cfg http g st)))
                                       = count_in_flight (g_id g') (calls st0)).
  { intros g' Hg'. rewrite campaign_step_count_other by
      (exact Hb || (intros E; apply Hnin; rewrite E; apply in_map; exact Hg')).
    apply Hc. right. exact Hg'. }
  rewrite !slot_allocation_fst, (Hc g (or_introl eq_refl)) in He.
  rewrite <- slot_allocation_fst in He.
  destruct (campaign_step cfg http g st) as [e st1]. cbn [fst snd] in *.
  pose proof (IH st1 st0 Hnd' Hb1 Hc1) as Hr.
  destruct (campaign_loop cfg http gs st1) as [es st2]. cbn [fst] in *.
  constructor; assumption.
Qed.

(** C9 (as corrected): with no selected running campaign the tick answers
    [{ok: true, message: "Nenhuma campanha running."}] with no results;
    otherwise it answers [{ok: true, results}] with one entry per selected
    campaign, in order.  Given unique campaign ids and store-assigned call
    ids, each entry is tied to the slots the allocator computes for its
    campaign from the store the tick starts from:
    [{started: 0, errors: 0, reason: "sem slots"}] when that is 0, and
    otherwise [{started, errors, free_slots}] with exactly those free slots
    and [started + errors <= free_slots]. *)
Theorem tick_response_shape (cfg : config) (http : http_oracle)
    (body_campaign_id : option string) (st : store)
    (Hnd : NoDup (map g_id (campaigns st))) (Hb : ids_below st) :
  match fst (tick cfg http body_campaign_id st) with
  | TickMessage ok m =>
      running_campaigns body_campaign_id (campaigns st) = []
      /\ ok = true /\ m = "Nenhuma campanha running."
  | TickResults ok rs =>
      running_campaigns body_campaign_id (campaigns st) <> []
      /\ ok = true
      /\ Forall2 (fun g e => entry_for g (fst (slot_allocation g st)) e)
                 (running_campaigns body_campaign_id (campaigns st)) rs
  end.
Proof.
  pose proof (running_campaigns_NoDup body_campaign_id (campaigns st) Hnd) as Hnd'.
  unfold tick, bind, ret, select_campaigns. cbn beta iota.
  pose proof (campaign_loop_entries cfg http
                (running_campaigns body_campaign_id (campaigns st)) st st Hnd' Hb
                (fun _ _ => eq_refl)) as HL.
  destruct (running_campaigns body_campaign_id (campaigns st)) as [| c0 cs0].
  - cbn. auto.
  - destruct (campaign_loop cfg http (c0 :: cs0) st) as [rs st'].
    cbn [fst] in *. split; [discriminate | auto].
Qed.

Lemma tick_response_shape_witness :
  NoDup (map g_id (campaigns store_one_pending))
  /\ ids_below store_one_pending
  /\ match fst (tick cfg_ok (http_answers resp_abc) None store_one_pending) with
     | TickMessage ok m =>
         running_campaigns None (campaigns store_one_pending) = []
         /\ ok = true /\ m = "Nenhuma campanha running."
     | TickResults ok rs =>
         running_campaigns None (campaigns store_one_pending) <> []
         /\ ok = true
         /\ Forall2 (fun g e => entry_for g (fst (slot_allocation g store_one_pending)) e)
                    (running_campaigns None (campaigns store_one_pending)) rs
     end.
Proof.
  assert (Hnd : NoDup (map g_id (campaigns store_one_pending)))
    by (cbn; constructor; [intros [] | constructor]).
  assert (Hb : ids_below store_one_pending) by constructor.
  split; [exact Hnd | split; [exact Hb |]].
  exact (tick_response_shape cfg_ok (http_answers resp_abc) None store_one_pending Hnd Hb).
Defined.
